(** * vgit/git.py: the git state reconciliation engine

    A shallow embedding of [vgit/git.py] (the chunked command reader
    [git_iter], the branch status parser [GitStatus.getBranchStatuses],
    the status label [GitStatus.statusText], the cache read
    [GitStatus.git_status] and the reconciliation [GitStatus.reload]),
    with the properties of the specification stated over it.

    Conventions.
    - A Python [str] is a [string]; the model is exact for text in the
      one-byte range, which is what the character classes below cover.
    - A Python [dict] used as a map is a [gmap]; the one dict whose
      iteration order is used ([filenames] in [reload]) is an association
      list with Python's insertion discipline.
    - A generator is the list of the values it yields, followed by what it
      does when it is exhausted (reports, or an exception). *)

From Stdlib Require Import ZArith Ascii String List Lia Bool Sorting.Sorted Permutation.
From stdpp Require Import gmap strings list fin_maps.

(** ** Python string primitives *)

Module Py.

(** [s.find(c)] for a one-character [c]: index of the first occurrence,
    [None] where Python returns [-1]. *)
Fixpoint find (c : ascii) (s : string) : option nat :=
  match s with
  | EmptyString => None
  | String a s' => if Ascii.eqb a c then Some 0 else S <$> find c s'
  end.

(** [s[:n]] *)
Fixpoint take (n : nat) (s : string) : string :=
  match n, s with
  | S n', String a s' => String a (take n' s')
  | _, _ => ""
  end.

(** [s[n:]] *)
Fixpoint drop (n : nat) (s : string) : string :=
  match n, s with
  | S n', String _ s' => drop n' s'
  | _, _ => s
  end.

(** [sep.join(l)] *)
Definition join (sep : string) (l : list string) : string := String.concat sep l.

(** the one-character string [c] *)
Definition chr (c : ascii) : string := String c "".

(** [bool(s)]: a string is true when it is not empty *)
Definition truthy (s : string) : bool :=
  match s with EmptyString => false | _ => true end.

(** last character, if any *)
Fixpoint last (s : string) : option ascii :=
  match s with
  | EmptyString => None
  | String a EmptyString => Some a
  | String _ s' => last s'
  end.

(** [s.endswith(c)] for a one-character [c] *)
Definition endswith (c : ascii) (s : string) : bool :=
  match last s with
  | Some a => Ascii.eqb a c
  | None => false
  end.

(** [s[:-1]] *)
Fixpoint drop_last (s : string) : string :=
  match s with
  | EmptyString => ""
  | String _ EmptyString => ""
  | String a s' => String a (drop_last s')
  end.

End Py.

(** ** The external process primitive (the [sh] library)

    A finished command: the blocks of standard output in the order the
    iteration delivers them, the exit code and the lines of standard
    error.  With [_iter=True] the iteration delivers every block and then
    raises [ErrorReturnCode] when the exit code is not zero. *)

Record Proc := mkProc {
  p_blocks : list string;
  p_exit : Z;
  p_errlines : list string
}.

Definition contents (p : Proc) : string := Py.join "" (p_blocks p).

(** What the user interface is told, in order. *)
Inductive Event :=
| EvStatus (msg : string)
| EvPush (title : string) (lines : list string)
| EvError (cmd : string) (code : Z)
| EvCmdStatus (cmd : string) (code : Z).

(** How a call ends. *)
Inductive Outcome :=
| Finished
| Raised (what : string).

(** The report of standard error shared by [git_lines] and [git_iter]:
    fewer than three lines are shown one by one, otherwise all of them are
    pushed as one sheet. *)
Definition report_stderr (cmd : string) (errlines : list string) : list Event :=
  if (length errlines <? 3)%nat then map EvStatus errlines
  else [EvPush cmd errlines].

(** ** Stream Chunker: [git_iter] *)

Section GitIter.

(** Modelled from the spec: [error] of the visidata core, which is not in
    [vgit/git.py].  The spec (4.1, 7) has the failure of a command reported
    to the caller through a side channel; whether the call then returns or
    raises is this parameter.  [false]: [error] reports and returns;
    [true]: [error] reports and raises. *)
Variable error_raises : bool.

(** The [while True] loop on one block [data]: the values yielded and the
    list [chunks] after [chunks.append(data)].  Every turn shortens [data],
    so [fuel] above its length is never used up. *)
Fixpoint scan (fuel : nat) (sep : ascii) (chunks : list string) (data : string)
  : list string * list string :=
  match fuel with
  | O => ([], chunks ++ [data])
  | S fuel' =>
      match Py.find sep data with
      | None => ([], chunks ++ [data])
      | Some i =>
          let chunks1 := chunks ++ [Py.take i data] in
          let data1 := Py.drop (S i) data in
          let '(ys, pend) := scan fuel' sep [] data1 in
          (Py.join "" chunks1 :: ys, pend)
      end
  end.

(** The [for data in git(...)] loop. *)
Fixpoint feed (sep : ascii) (chunks : list string) (blocks : list string)
  : list string * list string :=
  match blocks with
  | [] => ([], chunks)
  | data :: bs =>
      let '(ys, chunks1) := scan (S (String.length data)) sep chunks data in
      let '(zs, chunks2) := feed sep chunks1 bs in
      (ys ++ zs, chunks2)
  end.

Record Iter := mkIter {
  it_chunks : list string;   (* the values yielded, in order *)
  it_events : list Event;    (* reports made by the generator *)
  it_outcome : Outcome       (* how the generator ends *)
}.

Definition final_chunk (pend : list string) : list string :=
  let r := Py.join "" pend in
  if Py.truthy r then [r] else [].

Definition git_iter (cmd : string) (sep : ascii) (p : Proc) : Iter :=
  let '(ys, pend) := feed sep [] (p_blocks p) in
  if (p_exit p =? 0)%Z then
    mkIter (ys ++ final_chunk pend) (report_stderr cmd (p_errlines p)) Finished
  else
    let handler := report_stderr cmd (p_errlines p) ++ [EvError cmd (p_exit p)] in
    if error_raises then
      mkIter ys handler (Raised "ExpectedException")
    else
      mkIter (ys ++ final_chunk pend)
             (handler ++ report_stderr cmd (p_errlines p)) Finished.

End GitIter.

(** ** Regular expressions ([re.search]) as far as the branch parser uses them

    A backtracking matcher in continuation-passing style with Python's
    priorities: a greedy repetition tries the longest run first, an
    optional part is tried before it is skipped, and the captures seen by
    the continuation are those of the path that succeeds. *)

Module Re.

Inductive re :=
| Eps
| Chr (p : ascii -> bool)          (* one character of a class *)
| Star (p : ascii -> bool)         (* [c*], greedy, on a class *)
| Seq (r1 r2 : re)
| Opt (r : re)                     (* [r?], greedy *)
| Group (n : nat) (r : re).        (* capturing group, numbered from 0 *)

Definition caps := list (option string).

(** [c*] then [k]: the longest run first. *)
Fixpoint star {A} (p : ascii -> bool) (s : string) (k : string -> option A) : option A :=
  match s with
  | String a s' =>
      if p a then
        match star p s' k with
        | Some r => Some r
        | None => k s
        end
      else k s
  | EmptyString => k s
  end.

Fixpoint run (r : re) (s : string) (c : caps) (k : string -> caps -> option caps)
  : option caps :=
  match r with
  | Eps => k s c
  | Chr p =>
      match s with
      | String a s' => if p a then k s' c else None
      | EmptyString => None
      end
  | Star p => star p s (fun s' => k s' c)
  | Seq r1 r2 => run r1 s c (fun s1 c1 => run r2 s1 c1 k)
  | Opt r1 =>
      match run r1 s c k with
      | Some res => Some res
      | None => k s c
      end
  | Group n r1 =>
      run r1 s c (fun s1 c1 =>
        k s1 (<[n := Some (Py.take (String.length s - String.length s1) s)]> c1))
  end.

(** [re.match] at the start of [s], with [n] groups. *)
Definition match_here (n : nat) (r : re) (s : string) : option caps :=
  run r s (replicate n None) (fun _ c => Some c).

(** [re.search]: the first start position that matches. *)
Fixpoint search (n : nat) (r : re) (s : string) : option caps :=
  match match_here n r s with
  | Some c => Some c
  | None =>
      match s with
      | String _ s' => search n r s'
      | EmptyString => None
      end
  end.

Definition lit (c : ascii) : re := Chr (Ascii.eqb c).

Fixpoint lits (s : string) : re :=
  match s with
  | EmptyString => Eps
  | String a s' => Seq (lit a) (lits s')
  end.

(** [c+] *)
Definition plus (p : ascii -> bool) : re := Seq (Chr p) (Star p).

(** [\s] on text patterns: the white space of the code points below 256. *)
Definition space (a : ascii) : bool :=
  let n := nat_of_ascii a in
  ((9 <=? n) && (n <=? 13) || (28 <=? n) && (n <=? 32)
   || (n =? 133) || (n =? 160))%nat.

(** [\S] *)
Definition nonspace (a : ascii) : bool := negb (space a).

(** [\d] *)
Definition digit (a : ascii) : bool :=
  let n := nat_of_ascii a in ((48 <=? n) && (n <=? 57))%nat.

(** [.] without DOTALL *)
Definition dot (a : ascii) : bool := negb (Ascii.eqb a "010").

End Re.

(** ** Branch Status Parser: [GitStatus.getBranchStatuses] *)

(** The pattern, with the white space of [re.VERBOSE] removed:
    [(\S+)\s*(\S+)?\s*(\[(ahead.(\d+)),?\s*(behind.(\d+))?\])?] *)
Definition branch_re : Re.re :=
  Re.Seq (Re.Group 0 (Re.plus Re.nonspace))
 (Re.Seq (Re.Star Re.space)
 (Re.Seq (Re.Opt (Re.Group 1 (Re.plus Re.nonspace)))
 (Re.Seq (Re.Star Re.space)
         (Re.Opt (Re.Group 2
           (Re.Seq (Re.lit "[")
           (Re.Seq (Re.Group 3
                     (Re.Seq (Re.lits "ahead")
                     (Re.Seq (Re.Chr Re.dot) (Re.Group 4 (Re.plus Re.digit)))))
           (Re.Seq (Re.Opt (Re.lit ","))
           (Re.Seq (Re.Star Re.space)
           (Re.Seq (Re.Opt (Re.Group 5
                     (Re.Seq (Re.lits "behind")
                     (Re.Seq (Re.Chr Re.dot) (Re.Group 6 (Re.plus Re.digit))))))
                   (Re.lit "]"))))))))))).

(** [m.groups()] entry [i]; an index outside the tuple does not occur. *)
Definition group (c : Re.caps) (i : nat) : option string :=
  match c !! i with
  | Some g => g
  | None => None
  end.

(** [if g:] on a group: [None] and the empty string are false. *)
Definition group_true (g : option string) : bool :=
  match g with
  | Some s => Py.truthy s
  | None => false
  end.

Definition group_text (g : option string) : string :=
  match g with
  | Some s => s
  | None => "None"            (* ['%s' % None] *)
  end.

(** The body after a match: the delta string from groups 5 and 7. *)
Definition branch_delta (nahead nbehind : option string) : string :=
  let r := if group_true nahead then "+" +:+ group_text nahead else "" in
  if group_true nbehind then
    (if Py.truthy r then r +:+ "/" else r) +:+ "-" +:+ group_text nbehind
  else r.

(** One turn of the loop on a line [branch_status]: the dict [ret] and the
    reports so far.  A key is [m.groups()[0]], which a match always sets. *)
Definition branch_step (acc : gmap string string * list Event) (branch_status : string)
  : gmap string string * list Event :=
  let '(ret, evs) := acc in
  match Re.search 7 branch_re branch_status with
  | None => (ret, evs ++ [EvStatus ("unmatched branch status: " +:+ branch_status)])
  | Some m =>
      match group m 0 with
      | Some localb => (<[localb := branch_delta (group m 4) (group m 6)]> ret, evs)
      | None => (ret, evs)
      end
  end.

Definition getBranchStatuses (lines : list string) : gmap string string * list Event :=
  fold_left branch_step lines (∅, []).

(** ** More string primitives used by [reload] *)

Module PyStr.

(** [s.startswith(a)] *)
Fixpoint startswith (a s : string) : bool :=
  match a, s with
  | EmptyString, _ => true
  | String x a', String y s' => Ascii.eqb x y && startswith a' s'
  | String _ _, EmptyString => false
  end.

(** [a in s] on strings: [a] occurs in [s] *)
Fixpoint contains (a s : string) : bool :=
  startswith a s ||
  match s with
  | String _ s' => contains a s'
  | EmptyString => false
  end.

(** [s.split(c)] for a one-character [c]; the result is never empty. *)
Fixpoint split (c : ascii) (s : string) : list string :=
  match s with
  | EmptyString => [""]
  | String a s' =>
      let r := split c s' in
      if Ascii.eqb a c then "" :: r
      else match r with
           | x :: xs => String a x :: xs
           | [] => [String a ""]
           end
  end.

(** white space of [str.strip()], code points below 256 *)
Definition is_space (a : ascii) : bool := Re.space a.

Fixpoint lstrip (s : string) : string :=
  match s with
  | String a s' => if is_space a then lstrip s' else s
  | EmptyString => ""
  end.

(** [s.rstrip()]: the result of stripping the tail, emptied when only
    white space is left *)
Fixpoint rstrip (s : string) : string :=
  match s with
  | EmptyString => ""
  | String a s' =>
      match rstrip s' with
      | EmptyString => if is_space a then "" else String a ""
      | t => String a t
      end
  end.

(** [s.strip()] *)
Definition strip (s : string) : string := rstrip (lstrip s).

End PyStr.

(** ** Data model *)

(** [FileStatus = namedlist('FileStatus', 'status adds dels')]: the field
    [adds] holds the unstaged delta and [dels] the staged delta (columns
    [unstaged] and [staged]). *)
Record FileStatus := mkFileStatus {
  status : string;
  adds : option string;
  dels : option string
}.

(** [st == s] for a record [st] and a string [s].  A [FileStatus] is a
    list of its three fields; Python never finds a list equal to a
    string. *)
Definition FileStatus_eq_str (st : FileStatus) (s : string) : bool := false.

(** What [vgit/git.py] reads of a visidata [Path]. *)
Record Path := mkPath {
  path_name : string;       (* [p.name] *)
  path_rel : string;        (* [os.path.relpath(p.abspath(), worktree.abspath())] *)
  path_is_dir : bool;       (* [p.is_dir()] *)
  path_suffix : string;     (* [p.suffix] *)
  path_filesize : Z;        (* [p.filesize] *)
  path_mtime : Z            (* [p.mtime] *)
}.

(** [class GitFile] *)
Record GitFile := mkGitFile {
  path : Path;
  filename : string;
  is_dir : bool
}.

(** [GitFile.__init__(path, gitsrc)] *)
Definition GitFile_init (p : Path) : GitFile :=
  mkGitFile p (path_rel p) (path_is_dir p).

(** [GitFile.__str__] *)
Definition GitFile_str (gf : GitFile) : string :=
  filename gf +:+ (if is_dir gf then "/" else "").

(** What the module takes from its host: the two options it reads, the
    fixed leading arguments of every command, the file system behind
    [self.source.joinpath(fn)], and the behaviour of [error]. *)
Record Host := mkHost {
  error_raises : bool;             (* see [git_iter] *)
  vgit_show_ignored : bool;        (* [options.vgit_show_ignored] *)
  git_args : list string;          (* [self._git_args()] *)
  joinpath : string -> Path        (* [self.source.joinpath(fn)] *)
}.

(** ['git ' + ' '.join(args)] with the leading arguments of [GitSheet] *)
Definition cmdstr (h : Host) (args : list string) : string :=
  "git " +:+ Py.join " " (git_args h ++ args).

(** ** Status label: [GitStatus.statusText] *)

(** [vmod.get(c, c)] *)
Definition vmod (c : ascii) : string :=
  match c with
  | "A"%char => "add"
  | "D"%char => "rm"
  | "M"%char => "mod"
  | "T"%char => "chmod"
  | "?"%char => "out"
  | "!"%char => "ignored"
  | "U"%char => "unmerged"
  | _ => Py.chr c
  end.

(** [None] stands for the [ValueError] of [x, y = st.status] on a code
    that is not two characters long. *)
Definition statusText (st : FileStatus) : option string :=
  match status st with
  | String x (String y EmptyString) =>
      Some (if FileStatus_eq_str st "??" then "new"
            else if FileStatus_eq_str st "!!" then "ignored"
            else if negb (Ascii.eqb x " ") && Ascii.eqb y " " then vmod x
            else if negb (Ascii.eqb y " ") then vmod y
            else "")
  | _ => None
  end.

(** ** Cache read: [GitStatus.git_status] and [GitStatus.ignored] *)

(** [r] is a row or [None]; an object of [class GitFile] is always true,
    and so is a [FileStatus], which has three entries. *)
Definition git_status (cache : gmap string FileStatus) (r : option GitFile)
  : option FileStatus * gmap string FileStatus :=
  match r with
  | None => (None, cache)
  | Some gf =>
      match cache !! filename gf with
      | Some ret => (Some ret, cache)
      | None =>
          let ret := mkFileStatus "//" None None in
          (Some ret, <[filename gf := ret]> cache)
      end
  end.

Definition ignored (h : Host) (cache : gmap string FileStatus) (fn : string) : bool :=
  if vgit_show_ignored h then false
  else match cache !! fn with
       | Some st => String.eqb (status st) "!!"
       | None => false
       end.

(** ** Command Runner: [git_all] and [git_lines] *)

(** [git_all]: the whole output, also when the command fails; the failure
    is a status message. *)
Definition git_all (cmd : string) (p : Proc) : string * list Event :=
  (contents p, if (p_exit p =? 0)%Z then [] else [EvCmdStatus cmd (p_exit p)]).

(** [git_lines]: every line without its last character, then the reports.
    The blocks of [p] are the lines. *)
Definition git_lines (cmd : string) (p : Proc) : list string * list Event :=
  (map Py.drop_last (p_blocks p),
   (if (p_exit p =? 0)%Z then [] else [EvCmdStatus cmd (p_exit p)])
   ++ (if (length (p_errlines p) <? 3)%nat
       then map (fun l => EvStatus ("stderr: " +:+ l)) (p_errlines p)
       else [EvPush cmd (p_errlines p)])).

(** ** The sheet and its columns *)

Record Sheet := mkSheet {
  branch : string;
  remotediff : string;
  rows : list GitFile;
  cachedStatus : gmap string FileStatus;
  reported : list Event
}.

Definition set_rows (f : list GitFile -> list GitFile) (s : Sheet) : Sheet :=
  mkSheet (branch s) (remotediff s) (f (rows s)) (cachedStatus s) (reported s).

Definition set_cache (f : gmap string FileStatus -> gmap string FileStatus)
  (s : Sheet) : Sheet :=
  mkSheet (branch s) (remotediff s) (rows s) (f (cachedStatus s)) (reported s).

Definition report (evs : list Event) (s : Sheet) : Sheet :=
  mkSheet (branch s) (remotediff s) (rows s) (cachedStatus s) (reported s ++ evs).

(** Modelled from the spec: [Sheet.addRow] of the visidata core, which is
    not in [vgit/git.py]; it materializes a row: the row is appended to
    the row list. *)
Definition addRow (gf : GitFile) (s : Sheet) : Sheet :=
  set_rows (fun rs => rs ++ [gf]) s.

(** The value of a cell. *)
Inductive Cell :=
| CNone
| CErr
| CInt (z : Z)
| CStr (s : string)
| CRec (st : FileStatus).

Record Column := mkColumn {
  col_name : string;
  (* the getter reads the row and, through [git_status], the cache, which
     it may extend *)
  col_getter : gmap string FileStatus -> GitFile -> Cell * gmap string FileStatus
}.

Definition opt_cell (o : option string) : Cell :=
  match o with
  | Some s => CStr s
  | None => CNone
  end.

(** a getter through [c.sheet.git_status(r)] *)
Definition via_status (f : FileStatus -> Cell)
  (cache : gmap string FileStatus) (r : GitFile) : Cell * gmap string FileStatus :=
  match git_status cache (Some r) with
  | (Some st, cache') => (f st, cache')
  | (None, cache') => (CErr, cache')
  end.

(** [GitStatus.columns] *)
Definition columns : list Column :=
  [ mkColumn "path" (fun cache r => (CStr (GitFile_str r), cache));
    mkColumn "status"
      (via_status (fun st => match statusText st with
                             | Some t => CStr t
                             | None => CErr
                             end));
    mkColumn "status_raw" (via_status CRec);
    mkColumn "staged" (via_status (fun st => opt_cell (dels st)));
    mkColumn "unstaged" (via_status (fun st => opt_cell (adds st)));
    mkColumn "type"
      (fun cache r => (CStr (if is_dir r then "/" else path_suffix (path r)), cache));
    mkColumn "size" (fun cache r => (CInt (path_filesize (path r)), cache));
    mkColumn "mtime" (fun cache r => (CInt (path_mtime (path r)), cache)) ].

(** [columns[-1]] *)
Definition last_column : Column :=
  List.last columns (mkColumn "" (fun cache _ => (CNone, cache))).

(** The order of cell values used for sorting: absent values first, then
    numbers, then text. *)
Definition cell_leb (a b : Cell) : bool :=
  match a, b with
  | CNone, _ => true
  | CErr, CNone => false
  | CErr, _ => true
  | CInt _, (CNone | CErr) => false
  | CInt x, CInt y => (x <=? y)%Z
  | CInt _, _ => true
  | CStr _, (CNone | CErr | CInt _) => false
  | CStr x, CStr y => String.leb x y
  | CStr _, CRec _ => true
  | CRec x, CRec y => String.leb (status x) (status y)
  | CRec _, _ => false
  end.

(** the keys of the rows through a getter, in row order *)
Fixpoint keyed (g : gmap string FileStatus -> GitFile -> Cell * gmap string FileStatus)
  (cache : gmap string FileStatus) (rs : list GitFile)
  : list (Cell * GitFile) * gmap string FileStatus :=
  match rs with
  | [] => ([], cache)
  | r :: rs' =>
      let '(k, cache1) := g cache r in
      let '(krs, cache2) := keyed g cache1 rs' in
      ((k, r) :: krs, cache2)
  end.

(** descending insertion; rows with equal keys keep their order *)
Fixpoint insert_desc (x : Cell * GitFile) (l : list (Cell * GitFile))
  : list (Cell * GitFile) :=
  match l with
  | [] => [x]
  | y :: l' =>
      if negb (cell_leb (fst y) (fst x)) then y :: insert_desc x l'
      else x :: l
  end.

Definition sort_desc (l : list (Cell * GitFile)) : list (Cell * GitFile) :=
  foldr insert_desc [] l.

(** Modelled from the spec: [Sheet.orderBy] of the visidata core, which is
    not in [vgit/git.py]; [orderBy(None, col, reverse=True)] sorts the
    rows by the values of column [col], descending. *)
Definition orderBy_desc (col : Column) (s : Sheet) : Sheet :=
  let '(krs, cache') := keyed (col_getter col) (cachedStatus s) (rows s) in
  mkSheet (branch s) (remotediff s) (map snd (sort_desc krs)) cache' (reported s).

(** ** Python dicts whose order is used *)

Module Dict.

(** [d[k] = v]: a present key keeps its place, a new key goes last. *)
Fixpoint set {V} (k : string) (v : V) (d : list (string * V)) : list (string * V) :=
  match d with
  | [] => [(k, v)]
  | (k', v') :: d' =>
      if String.eqb k' k then (k, v) :: d' else (k', v') :: set k v d'
  end.

(** [dict(pairs)] *)
Definition of_pairs {V} (l : list (string * V)) : list (string * V) :=
  fold_left (fun d kv => set (fst kv) (snd kv) d) l [].

(** [k in d] *)
Definition has {V} (k : string) (d : list (string * V)) : bool :=
  existsb (fun kv => String.eqb (fst kv) k) d.

End Dict.

(** ** Reload Orchestrator: [GitStatus.reload] *)

(** The outputs of the commands of one cycle and the directory listing. *)
Record Inputs := mkInputs {
  in_iterdir : list Path;      (* [self.source.iterdir()] *)
  in_head : Proc;              (* [rev-parse --abbrev-ref HEAD] *)
  in_refs : Proc;              (* [for-each-ref ... refs/heads], by lines *)
  in_ls_files : Proc;          (* [ls-files -z] *)
  in_status : Proc;            (* [status -z -unormal --ignored] *)
  in_diff_files : Proc;        (* [diff-files --numstat -z] *)
  in_diff_index : Proc         (* [diff-index --cached --numstat -z HEAD] *)
}.

(** A statement of [reload]: the sheet after it and how it ended.  A
    statement that raises leaves the sheet as it has made it. *)
Definition Action := Sheet -> Sheet * Outcome.

Definition step (f : Sheet -> Sheet) : Action := fun s => (f s, Finished).

(** Statements in sequence: the sheets a reader can see after each
    statement, and how the sequence ended.  The first exception ends it. *)
Fixpoint run (acts : list Action) (s : Sheet) : list Sheet * Outcome :=
  match acts with
  | [] => ([], Finished)
  | a :: rest =>
      match a s with
      | (s', Finished) => let '(tr, o) := run rest s' in (s' :: tr, o)
      | (s', Raised e) => ([s'], Raised e)
      end
  end.

(** [for x in it: body(x)] on a generator: the body on every value
    yielded, then the end of the generator. *)
Definition for_iter (it : Iter) (body : string -> Action) : list Action :=
  map body (it_chunks it)
  ++ [fun s => (report (it_events it) s, it_outcome it)].

(** [files]: the entries of the working directory whose name does not
    pass [p.name not in ('.git')], a test on the string ['.git']. *)
Definition files (inp : Inputs) : list GitFile :=
  map GitFile_init
      (List.filter (fun p => negb (PyStr.contains (path_name p) ".git"))
                   (in_iterdir inp)).

Definition filenames (inp : Inputs) : list (string * GitFile) :=
  Dict.of_pairs (map (fun gf => (filename gf, gf)) (files inp)).

Definition set_branch (h : Host) (inp : Inputs) : Action :=
  step (fun s =>
    let '(out, evs) :=
      git_all (cmdstr h ["rev-parse"; "--abbrev-ref"; "HEAD"]) (in_head inp) in
    mkSheet (PyStr.strip out) (remotediff s) (rows s) (cachedStatus s)
            (reported s ++ evs)).

Definition for_each_ref_args : list string :=
  ["for-each-ref";
   "--format=%(refname:short) %(upstream:short) %(upstream:track)";
   "refs/heads"].

Definition set_remotediff (h : Host) (inp : Inputs) : Action :=
  step (fun s =>
    let '(lines, evs1) := git_lines (cmdstr h for_each_ref_args) (in_refs inp) in
    let '(ret, evs2) := getBranchStatuses lines in
    mkSheet (branch s) (default "no branch" (ret !! branch s)) (rows s)
            (cachedStatus s) (reported s ++ evs2 ++ evs1)).

Definition ls_files_body (fn : string) : Action :=
  step (set_cache (fun cache => <[fn := mkFileStatus "  " None None]> cache)).

(** The code and the path of a status chunk: [st, fn] after the test
    [status_line[2:3] == ' ']. *)
Definition status_fields (status_line : string) : string * string :=
  if String.eqb (Py.take 1 (Py.drop 2 status_line)) " "
  then (Py.take 2 status_line, Py.drop 3 status_line)
  else ("//", status_line).

Definition status_body (h : Host) (inp : Inputs) (status_line : string) : Action :=
  step (fun s =>
    if Py.truthy status_line then
      let '(st, fn) := status_fields status_line in
      let gf := GitFile_init (joinpath h fn) in
      let s1 := set_cache (fun cache =>
                  <[filename gf := mkFileStatus st None None]> cache) s in
      if negb (Dict.has (filename gf) (filenames inp)) then
        if negb (ignored h (cachedStatus s1) (filename gf)) then addRow gf s1
        else s1
      else s1
    else s).

Inductive Numstat := Unstaged | Staged.

Definition seed (w : Numstat) : string :=
  match w with
  | Unstaged => "##"
  | Staged => "$$"
  end.

(** [cs.adds = v] after [diff-files], [cs.dels = v] after [diff-index] *)
Definition set_delta (w : Numstat) (v : string) (cs : FileStatus) : FileStatus :=
  match w with
  | Unstaged => mkFileStatus (status cs) (Some v) (dels cs)
  | Staged => mkFileStatus (status cs) (adds cs) (Some v)
  end.

(** The body of both numstat loops; the unpacking of [line.split('\t')]
    raises unless there are three fields. *)
Definition numstat_body (w : Numstat) (line : string) : Action := fun s =>
  if negb (Py.truthy line) then (s, Finished)
  else
    match PyStr.split "009" line with
    | [a; d; fn] =>
        let cache1 :=
          match cachedStatus s !! fn with
          | Some _ => cachedStatus s
          | None => <[fn := mkFileStatus (seed w) None None]> (cachedStatus s)
          end in
        (set_cache (fun _ =>
           alter (set_delta w ("+" +:+ a +:+ "/-" +:+ d)) fn cache1) s,
         Finished)
    | _ => (s, Raised "ValueError")
    end.

Definition candidate_body (h : Host) (item : string * GitFile) : Action :=
  step (fun s =>
    let gf := snd item in
    if negb (ignored h (cachedStatus s) (filename gf)) then addRow gf s else s).

Definition reload_actions (h : Host) (inp : Inputs) : list Action :=
  [ set_branch h inp;
    set_remotediff h inp;
    step (set_rows (fun _ => []));
    step (set_cache (fun _ => ∅)) ]
  ++ for_iter (git_iter (error_raises h) (cmdstr h ["ls-files"; "-z"]) "000"
                        (in_ls_files inp))
              ls_files_body
  ++ for_iter (git_iter (error_raises h)
                        (cmdstr h ["status"; "-z"; "-unormal"; "--ignored"]) "000"
                        (in_status inp))
              (status_body h inp)
  ++ for_iter (git_iter (error_raises h)
                        (cmdstr h ["diff-files"; "--numstat"; "-z"]) "000"
                        (in_diff_files inp))
              (numstat_body Unstaged)
  ++ for_iter (git_iter (error_raises h)
                        (cmdstr h ["diff-index"; "--cached"; "--numstat"; "-z"; "HEAD"])
                        "000" (in_diff_index inp))
              (numstat_body Staged)
  ++ map (candidate_body h) (filenames inp)
  ++ [ step (orderBy_desc last_column);
       step (fun s => s) (* [self.recalc()]: no state of this model *) ].

(** The sheets visible during [reload] and how it ends. *)
Definition reload (h : Host) (inp : Inputs) (s : Sheet) : list Sheet * Outcome :=
  run (reload_actions h inp) s.

(** The sheet when [reload] has ended. *)
Definition reload_final (h : Host) (inp : Inputs) (s : Sheet) : Sheet :=
  List.last (fst (reload h inp s)) s.

(** ** Definitions used to state the properties *)

(** every value followed by the delimiter *)
Definition terminated (c : ascii) (ys : list string) : string :=
  foldr (fun y acc => y +:+ String c acc) "" ys.

(** a command that ends with exit code 0 and a silent standard error *)
Definition ok (blocks : list string) : Proc := mkProc blocks 0 [].

(** The label as the specification words it, from the status code. *)
Definition claimed_key (c : ascii) : string :=
  match c with
  | "A"%char => "add"
  | "D"%char => "remove"
  | "M"%char => "modify"
  | "T"%char => "mode-change"
  | _ => Py.chr c
  end.

Definition claimed_label (code : string) : option string :=
  match code with
  | String x (String y EmptyString) =>
      Some (if String.eqb code "??" then "new"
            else if String.eqb code "!!" then "ignored"
            else if negb (Ascii.eqb x " ") && Ascii.eqb y " " then claimed_key x
            else if negb (Ascii.eqb y " ") then claimed_key y
            else "")
  | _ => None
  end.

(** The label of a two-character code [x y] through the table [vmod] of
    the source, apart from the untracked code. *)
Definition table_label (x y : ascii) : string :=
  if String.eqb (String x (String y "")) "!!" then "ignored"
  else if negb (Ascii.eqb x " ") && Ascii.eqb y " " then vmod x
  else if negb (Ascii.eqb y " ") then vmod y
  else "".

(** The sheet after a sequence of statements and how the sequence ended. *)
Fixpoint exec (acts : list Action) (s : Sheet) : Sheet * Outcome :=
  match acts with
  | [] => (s, Finished)
  | a :: rest =>
      match a s with
      | (s', Finished) => exec rest s'
      | (s', Raised e) => (s', Raised e)
      end
  end.

(** The four chunked queries of [reload], as [git_iter] delivers them. *)
Definition ls_files_iter (h : Host) (inp : Inputs) : Iter :=
  git_iter (error_raises h) (cmdstr h ["ls-files"; "-z"]) "000" (in_ls_files inp).

Definition status_iter (h : Host) (inp : Inputs) : Iter :=
  git_iter (error_raises h) (cmdstr h ["status"; "-z"; "-unormal"; "--ignored"])
           "000" (in_status inp).

Definition numstat_iter (w : Numstat) (h : Host) (inp : Inputs) : Iter :=
  match w with
  | Unstaged =>
      git_iter (error_raises h) (cmdstr h ["diff-files"; "--numstat"; "-z"])
               "000" (in_diff_files inp)
  | Staged =>
      git_iter (error_raises h)
               (cmdstr h ["diff-index"; "--cached"; "--numstat"; "-z"; "HEAD"])
               "000" (in_diff_index inp)
  end.

(** The sheet after the four statements that open [reload]. *)
Definition reset (h : Host) (inp : Inputs) (s : Sheet) : Sheet :=
  set_cache (fun _ => ∅)
    (set_rows (fun _ => [])
      (fst (set_remotediff h inp (fst (set_branch h inp s))))).

(** The sheet after one turn of the status loop and of the last loop. *)
Definition status_step (h : Host) (inp : Inputs) (line : string) (s : Sheet) : Sheet :=
  fst (status_body h inp line s).

Definition candidate_step (h : Host) (item : string * GitFile) (s : Sheet) : Sheet :=
  fst (candidate_body h item s).

(** The tab of the numstat lines and a line [adds TAB dels TAB path]. *)
Definition tab : ascii := "009"%char.

Definition numstat_line (a d fn : string) : string :=
  a +:+ String tab (d +:+ String tab fn).

(** ['+%s/-%s' % (adds, dels)] *)
Definition delta (a d : string) : string := "+" +:+ a +:+ "/-" +:+ d.

(** the field a numstat query fills *)
Definition delta_field (w : Numstat) (st : FileStatus) : option string :=
  match w with
  | Unstaged => adds st
  | Staged => dels st
  end.

(** a chunk that is not a numstat line for path [p] *)
Definition not_for (p : string) (line : string) : Prop :=
  forall a d, PyStr.split tab line <> [a; d; p].

(** the row a status chunk stands for *)
Definition reported_file (h : Host) (line : string) : GitFile :=
  GitFile_init (joinpath h (snd (status_fields line))).

(** a status chunk classified as ignored when it is handled *)
Definition classified_ignored (h : Host) (line : string) : bool :=
  negb (vgit_show_ignored h) && String.eqb (fst (status_fields line)) "!!".

(** number of rows of path [p] *)
Definition count_rows (p : string) (rs : list GitFile) : nat :=
  length (List.filter (fun r => String.eqb (filename r) p) rs).

(** ** Concrete hosts and inputs for the examples *)

(** A host whose [error] only reports, with ignored files hidden, and a
    file system in which every relative path names a plain file with that
    relative path. *)
Definition plain_path (mtime : Z) (fn : string) : Path :=
  mkPath fn fn false "" 0 mtime.

Definition demo_host : Host := mkHost false false [] (plain_path 0).

(** the same host with an [error] that raises *)
Definition raising_host : Host := mkHost true false [] (plain_path 0).

Definition blank : Sheet := mkSheet "" "" [] ∅ [].

Definition nul : ascii := "000"%char.

(** the output of a [-z] command: every record ended by NUL, in one block *)
Definition zstream (records : list string) : Proc := ok [terminated nul records].

(** a status chunk that makes a row: not empty, its path no candidate of
    the directory listing, and not classified as ignored *)
Definition shows_row (h : Host) (inp : Inputs) (line : string) : bool :=
  Py.truthy line
  && negb (Dict.has (filename (reported_file h line)) (filenames inp))
  && negb (classified_ignored h line).

(** a status chunk that reports path [p] and is not classified as ignored *)
Definition reports (h : Host) (p : string) (line : string) : bool :=
  Py.truthy line
  && String.eqb (filename (reported_file h line)) p
  && negb (classified_ignored h line).

(** C7 as the specification states it: every path that a status chunk
    reports, that is no candidate and not ignored, has exactly one row. *)
Definition one_row_per_status_path (h : Host) (inp : Inputs) (s : Sheet) : Prop :=
  forall line,
    In line (it_chunks (status_iter h inp)) ->
    Py.truthy line = true ->
    Dict.has (filename (reported_file h line)) (filenames inp) = false ->
    classified_ignored h line = false ->
    count_rows (filename (reported_file h line)) (rows (reload_final h inp s)) = 1%nat.

(** descending order of keyed rows *)
Definition desc (x y : Cell * GitFile) : Prop := cell_leb (fst y) (fst x) = true.

(** newest first *)
Definition newer_first (a b : GitFile) : Prop :=
  (path_mtime (path b) <= path_mtime (path a))%Z.

(** The value of the column [staged] for a row. *)
Definition staged_cell (cache : gmap string FileStatus) (r : GitFile) : Cell :=
  fst (via_status (fun st => opt_cell (dels st)) cache r).

(** C6 as the specification states it: the rows are in descending order
    of the staged delta. *)
Definition sorted_by_staged (s : Sheet) : Prop :=
  Sorted (fun a b => cell_leb (staged_cell (cachedStatus s) b)
                              (staged_cell (cachedStatus s) a) = true)
         (rows s).

(** A working directory with the one entry [sub] (a directory), in which
    [sub/old] was renamed to [sub/new] in the index and a new untracked
    [sub/old] was made: [status -z] gives the rename, its source as a
    bare path, and the untracked file. *)
Definition renamed_and_remade : Inputs :=
  mkInputs [mkPath "sub" "sub" true "" 0 0]
           (ok []) (ok [])
           (zstream ["sub/new"])
           (zstream ["R  sub/new"; "sub/old"; "?? sub/old"])
           (ok []) (ok []).

(** A working directory with the one entry [kept.txt] and a deleted
    tracked file [gone.txt]. *)
Definition one_deleted : Inputs :=
  mkInputs [mkPath "kept.txt" "kept.txt" false ".txt" 0 0]
           (ok []) (ok [])
           (zstream ["kept.txt"; "gone.txt"])
           (zstream [" D gone.txt"])
           (ok []) (ok []).

(** Two files: [a], newer, with the smaller staged delta, and [b]. *)
Definition two_staged : Inputs :=
  mkInputs [mkPath "a" "a" false "" 0 2; mkPath "b" "b" false "" 0 1]
           (ok []) (ok [])
           (zstream ["a"; "b"])
           (zstream ["M  a"; "M  b"])
           (ok [])
           (zstream [numstat_line "1" "0" "a"; numstat_line "9" "0" "b"]).

(** What a reader sees of a sheet: everything but the messages. *)
Definition view (s : Sheet) : string * string * list GitFile * gmap string FileStatus :=
  (branch s, remotediff s, rows s, cachedStatus s).

(** Two statements that do the same to what a reader sees. *)
Definition sim (a b : Action) : Prop :=
  forall s1 s2, view s1 = view s2 ->
    snd (a s1) = snd (b s2) /\ view (fst (a s1)) = view (fst (b s2)).





(** The command line and the process of each of the four queries. *)
Inductive Query := QLsFiles | QStatus | QDiffFiles | QDiffIndex.

Definition query_proc (q : Query) (inp : Inputs) : Proc :=
  match q with
  | QLsFiles => in_ls_files inp
  | QStatus => in_status inp
  | QDiffFiles => in_diff_files inp
  | QDiffIndex => in_diff_index inp
  end.

Definition query_cmd (h : Host) (q : Query) : string :=
  match q with
  | QLsFiles => cmdstr h ["ls-files"; "-z"]
  | QStatus => cmdstr h ["status"; "-z"; "-unormal"; "--ignored"]
  | QDiffFiles => cmdstr h ["diff-files"; "--numstat"; "-z"]
  | QDiffIndex => cmdstr h ["diff-index"; "--cached"; "--numstat"; "-z"; "HEAD"]
  end.

(** C4 as the specification states it: a reader sees the rows and the
    map of before the reload or those of after it, nothing between. *)
Definition swapped_at_once (h : Host) (inp : Inputs) (s : Sheet) : Prop :=
  forall t, In t (fst (reload h inp s)) ->
    (rows t, cachedStatus t) = (rows s, cachedStatus s)
    \/ (rows t, cachedStatus t)
       = (rows (reload_final h inp s), cachedStatus (reload_final h inp s)).

(** The statements of [reload] after the four opening ones. *)
Definition reload_rest (h : Host) (inp : Inputs) : list Action :=
  for_iter (ls_files_iter h inp) ls_files_body
  ++ for_iter (status_iter h inp) (status_body h inp)
  ++ for_iter (numstat_iter Unstaged h inp) (numstat_body Unstaged)
  ++ for_iter (numstat_iter Staged h inp) (numstat_body Staged)
  ++ map (candidate_body h) (filenames inp)
  ++ [ step (orderBy_desc last_column); step (fun s => s) ].



(** ** Branch status lines *)

Fixpoint all_chars (p : ascii -> bool) (s : string) : bool :=
  match s with
  | EmptyString => true
  | String a s' => p a && all_chars p s'
  end.

(** [s] is empty or begins with a character outside the class *)
Definition stops (p : ascii -> bool) (s : string) : bool :=
  match s with
  | EmptyString => true
  | String a _ => negb (p a)
  end.

(** a branch name: not empty, no white space *)
Definition token (s : string) : Prop := s <> "" /\ all_chars Re.nonspace s = true.

(** a count: one digit or more *)
Definition number (s : string) : Prop := s <> "" /\ all_chars Re.digit s = true.

(** a run of white space, possibly empty *)
Definition blank_run (s : string) : Prop := all_chars Re.space s = true.

(** The lines of [for-each-ref] for a branch [l] with upstream [u]. *)
Definition both_line (l u N M : string) : string :=
  l +:+ " " +:+ u +:+ " [ahead " +:+ N +:+ ", behind " +:+ M +:+ "]".

Definition ahead_line (l u N : string) : string :=
  l +:+ " " +:+ u +:+ " [ahead " +:+ N +:+ "]".

Definition behind_line (l u M : string) : string :=
  l +:+ " " +:+ u +:+ " [behind " +:+ M +:+ "]".

(** ** In-progress operations: [GitSheet.inProgress], [GitSheet.abortWhatever] *)

(** [exists p] stands for [Path(p).exists()]. *)
Definition inProgress (exists_ : string -> bool) : string :=
  if exists_ ".git/rebase-merge" || exists_ ".git/rebase-apply/rebasing" then "rebasing"
  else if exists_ ".git/rebase-apply" then "applying"
  else if exists_ ".git/CHERRY_PICK_HEAD" then "cherry-picking"
  else if exists_ ".git/MERGE_HEAD" then "merging"
  else if exists_ ".git/BISECT_LOG" then "bisecting"
  else "".

(** What [abortWhatever] does: a git command, or the message that there is
    nothing to abort. *)
Inductive Abort :=
| AbortGit (args : list string)
| AbortNothing.

Definition abortWhatever (exists_ : string -> bool) : Abort :=
  let inp := inProgress exists_ in
  if PyStr.startswith "cherry-pick" inp then AbortGit ["cherry-pick"; "--abort"]
  else if PyStr.startswith "merg" inp then AbortGit ["merge"; "--abort"]
  else if PyStr.startswith "bisect" inp then AbortGit ["bisect"; "reset"]
  else if PyStr.startswith "rebas" inp || PyStr.startswith "apply" inp
       then AbortGit ["rebase"; "--abort"]
  else AbortNothing.

(** ** Mutating commands: [GitSheet.git], [git-force], [GitSheet.git_apply] *)

(** the command [git-force]: [extra_args.append("--force")] *)
Definition git_force (extra_args : list string) : list string :=
  extra_args ++ ["--force"].

(** The first two statements of [git]: the arguments of the command that
    is run, and [extra_args] after [clear()]. *)
Definition git_arguments (args extra_args : list string) : list string * list string :=
  (args ++ extra_args, []).

Definition newline : ascii := "010"%char.

(** ["\n".join(hunk[7]) + "\n"], the standard input of [git apply] *)
Definition patch_body (lines : list string) : string :=
  Py.join (Py.chr newline) lines +:+ Py.chr newline.

(** [git_apply(hunk, *args)]: the arguments of the command, its input and
    [extra_args] afterwards. *)
Definition git_apply (lines : list string) (args extra_args : list string)
  : list string * string * list string :=
  let '(used, pending) := git_arguments (["apply"; "-p0"; "-"] ++ args) extra_args in
  (used, patch_body lines, pending).

(** ** Definitions for the further properties *)

(** every record of a cache has a code of two characters *)
Definition two_char (cache : gmap string FileStatus) : Prop :=
  forall fn st, cache !! fn = Some st -> String.length (status st) = 2%nat.

(** a status chunk that is empty or reports another path than [p] *)
Definition not_reporting (h : Host) (p : string) (line : string) : Prop :=
  Py.truthy line = true -> filename (reported_file h line) <> p.

(** a well-formed status chunk: two characters of code, a space, a path *)
Definition status_line (x y : ascii) (fn : string) : string :=
  String x (String y (String " " fn)).

(** the column of a numstat query *)
Definition numstat_column (w : Numstat) : string :=
  match w with
  | Unstaged => "unstaged"
  | Staged => "staged"
  end.

(** the column of that name *)
Definition column_named (name : string) : option Column :=
  List.find (fun col => String.eqb (col_name col) name) columns.

(** The sheet when the tracked-file query and the status query are read,
    before the numstat queries. *)
Definition after_status (h : Host) (inp : Inputs) (s : Sheet) : Sheet :=
  report (it_events (status_iter h inp))
    (fold_left (fun s line => status_step h inp line s)
       (it_chunks (status_iter h inp))
       (report (it_events (ls_files_iter h inp))
          (fold_left (fun s fn => fst (ls_files_body fn s))
             (it_chunks (ls_files_iter h inp)) (reset h inp s)))).

(** number of delimiters in a text *)
Fixpoint count_char (c : ascii) (s : string) : nat :=
  match s with
  | EmptyString => 0
  | String a s' => (if Ascii.eqb a c then 1 else 0) + count_char c s'
  end.

(** a repository on branch [main], two commits ahead of its upstream and
    one behind, with no file *)
Definition ahead_behind_repo : Inputs :=
  mkInputs [] (ok ["main" +:+ Py.chr newline])
           (ok [both_line "main" "origin/main" "2" "1" +:+ Py.chr newline])
           (zstream []) (zstream []) (zstream []) (zstream []).

(** * Properties *)

(** ** Strings *)

Lemma sapp_cons (x : ascii) (a b : string) : String x a +:+ b = String x (a +:+ b).
Proof. reflexivity. Qed.

Lemma sapp_nil_l (s : string) : "" +:+ s = s.
Proof. reflexivity. Qed.

Lemma sapp_nil_r (s : string) : s +:+ "" = s.
Proof. induction s as [|a s IH]; [reflexivity|]. now rewrite sapp_cons, IH. Qed.

Lemma sapp_assoc (a b d : string) : (a +:+ b) +:+ d = a +:+ (b +:+ d).
Proof. induction a as [|x a IH]; [reflexivity|]. now rewrite !sapp_cons, IH. Qed.

Lemma slength_app (a b : string) :
  String.length (a +:+ b) = (String.length a + String.length b)%nat.
Proof.
  induction a as [|x a IH]; [reflexivity|].
  rewrite sapp_cons. cbn. now rewrite IH.
Qed.

Lemma join_empty_cons (x : string) (l : list string) :
  Py.join "" (x :: l) = x +:+ Py.join "" l.
Proof.
  unfold Py.join. destruct l as [|y l]; cbn.
  - now rewrite sapp_nil_r.
  - reflexivity.
Qed.

Lemma join_empty_app (l1 l2 : list string) :
  Py.join "" (l1 ++ l2) = Py.join "" l1 +:+ Py.join "" l2.
Proof.
  induction l1 as [|x l1 IH]; [reflexivity|].
  rewrite <- app_comm_cons, !join_empty_cons, IH. now rewrite sapp_assoc.
Qed.

Lemma join_empty_snoc (l : list string) (x : string) :
  Py.join "" (l ++ [x]) = Py.join "" l +:+ x.
Proof. rewrite join_empty_app. unfold Py.join at 2. reflexivity. Qed.

Lemma truthy_false (s : string) : Py.truthy s = false -> s = "".
Proof. now destruct s. Qed.

Lemma truthy_true (s : string) : Py.truthy s = true -> s <> "".
Proof. now destruct s. Qed.

Section Find.

Variable c : ascii.

Lemma find_app (a b : string) :
  Py.find c (a +:+ b) =
  match Py.find c a with
  | Some i => Some i
  | None => (fun j => String.length a + j)%nat <$> Py.find c b
  end.
Proof.
  induction a as [|x a IH].
  - rewrite sapp_nil_l. cbn. now destruct (Py.find c b).
  - rewrite sapp_cons. cbn. destruct (Ascii.eqb x c); [reflexivity|].
    rewrite IH. destruct (Py.find c a); [reflexivity|].
    now destruct (Py.find c b).
Qed.

Lemma find_app_None (a b : string) :
  Py.find c a = None -> Py.find c b = None -> Py.find c (a +:+ b) = None.
Proof. intros Ha Hb. now rewrite find_app, Ha, Hb. Qed.

Lemma find_take (s : string) (i : nat) :
  Py.find c s = Some i -> Py.find c (Py.take i s) = None.
Proof.
  revert i. induction s as [|x s IH]; intros i; cbn; [discriminate|].
  destruct (Ascii.eqb x c) eqn:E.
  - intros [= <-]. reflexivity.
  - destruct (Py.find c s) as [j|]; [|discriminate].
    intros [= <-]. cbn. rewrite E. now rewrite (IH j).
Qed.

Lemma find_split (s : string) (i : nat) :
  Py.find c s = Some i -> s = Py.take i s +:+ String c (Py.drop (S i) s).
Proof.
  revert i. induction s as [|x s IH]; intros i; cbn; [discriminate|].
  destruct (Ascii.eqb_spec x c) as [->|Hne].
  - intros [= <-]. cbn. now destruct s.
  - destruct (Py.find c s) as [j|] eqn:E; [|discriminate].
    intros [= <-]. cbn [Py.take Py.drop]. rewrite sapp_cons.
    f_equal. now apply IH.
Qed.

Lemma find_drop_length (s : string) (i : nat) :
  Py.find c s = Some i ->
  (String.length (Py.drop (S i) s) < String.length s)%nat.
Proof.
  intros H. pose proof (find_split s i H) as E.
  apply (f_equal String.length) in E.
  rewrite slength_app in E. cbn [String.length] in E. lia.
Qed.

End Find.

(** ** Stream Chunker *)

Section Chunker.

Variable c : ascii.

Lemma terminated_cons (y : string) (ys : list string) :
  terminated c (y :: ys) = y +:+ String c (terminated c ys).
Proof. reflexivity. Qed.

Lemma terminated_app (ys zs : list string) :
  terminated c (ys ++ zs) = terminated c ys +:+ terminated c zs.
Proof.
  induction ys as [|y ys IH]; [reflexivity|].
  rewrite <- app_comm_cons, !terminated_cons, IH.
  now rewrite sapp_assoc, sapp_cons.
Qed.

(** One block: what is yielded, with the delimiter after each value,
    followed by what is kept, is what was kept before followed by the
    block; and what is kept holds no delimiter. *)
Lemma scan_spec (fuel : nat) :
  forall chunks data ys pend,
    (String.length data < fuel)%nat ->
    scan fuel c chunks data = (ys, pend) ->
    terminated c ys +:+ Py.join "" pend = Py.join "" chunks +:+ data
    /\ (Py.find c (Py.join "" chunks) = None -> Py.find c (Py.join "" pend) = None).
Proof.
  induction fuel as [|fuel IH]; intros chunks data ys pend Hlt H; [lia|].
  cbn [scan] in H. destruct (Py.find c data) as [i|] eqn:E.
  - destruct (scan fuel c [] (Py.drop (S i) data)) as [ys' pend'] eqn:E'.
    injection H as <- <-.
    pose proof (find_drop_length c data i E) as Hlen.
    apply IH in E'; [|lia]. destruct E' as [E1 E2]. split.
    + rewrite terminated_cons, join_empty_snoc, !sapp_assoc, sapp_cons, E1.
      change (Py.join "" []) with "". rewrite sapp_nil_l.
      now rewrite <- (find_split c data i E).
    + intros _. now apply E2.
  - injection H as <- <-. rewrite join_empty_snoc. split; [reflexivity|].
    intros Hc. now apply find_app_None.
Qed.

Lemma feed_spec (blocks : list string) :
  forall chunks ys pend,
    feed c chunks blocks = (ys, pend) ->
    terminated c ys +:+ Py.join "" pend = Py.join "" chunks +:+ Py.join "" blocks
    /\ (Py.find c (Py.join "" chunks) = None -> Py.find c (Py.join "" pend) = None).
Proof.
  induction blocks as [|data bs IH]; intros chunks ys pend H; cbn [feed] in H.
  - injection H as <- <-. split; [|auto].
    change (Py.join "" []) with "". now rewrite sapp_nil_r.
  - destruct (scan (S (String.length data)) c chunks data) as [ys1 chunks1] eqn:E1.
    destruct (feed c chunks1 bs) as [zs chunks2] eqn:E2.
    injection H as <- <-.
    apply scan_spec in E1; [|lia]. apply IH in E2.
    destruct E1 as [A1 B1], E2 as [A2 B2]. split; [|auto].
    rewrite terminated_app, sapp_assoc, A2, <- sapp_assoc, A1.
    now rewrite join_empty_cons, sapp_assoc.
Qed.

(** Joining with the delimiter against ending every value with it. *)
Lemma join_terminated_snoc (ys : list string) (r : string) :
  Py.join (Py.chr c) (ys ++ [r]) = terminated c ys +:+ r.
Proof.
  induction ys as [|y ys IH]; [reflexivity|].
  rewrite terminated_cons, sapp_assoc, sapp_cons, <- IH.
  rewrite <- app_comm_cons. unfold Py.join. cbn [String.concat].
  destruct (ys ++ [r]) eqn:E; [now destruct ys|].
  reflexivity.
Qed.

Lemma join_terminated (ys : list string) :
  ys <> [] -> Py.join (Py.chr c) ys +:+ Py.chr c = terminated c ys.
Proof.
  intros Hne. destruct (exists_last Hne) as (ys' & r & ->).
  rewrite join_terminated_snoc, terminated_app, terminated_cons.
  now rewrite sapp_assoc.
Qed.

Lemma slast_app (a b : string) : b <> "" -> Py.last (a +:+ b) = Py.last b.
Proof.
  intros Hb. induction a as [|x a IH]; [reflexivity|].
  rewrite sapp_cons. cbn [Py.last]. rewrite IH.
  destruct (a +:+ b) eqn:E; [|reflexivity].
  destruct a; [|discriminate]. now rewrite sapp_nil_l in E.
Qed.

Lemma endswith_free (a r : string) :
  r <> "" -> Py.find c r = None -> Py.endswith c (a +:+ r) = false.
Proof.
  intros Hr Hf. unfold Py.endswith. rewrite slast_app by assumption.
  clear a. induction r as [|x r IH]; [congruence|].
  cbn in Hf. destruct (Ascii.eqb x c) eqn:E; [discriminate|].
  destruct r as [|y r]; [cbn; now rewrite E|].
  cbn [Py.last]. cbn [Py.last] in IH. apply IH; [discriminate|].
  now destruct (Py.find c (String y r)).
Qed.

Lemma endswith_terminated (ys : list string) :
  ys <> [] -> Py.endswith c (terminated c ys) = true.
Proof.
  intros Hne. destruct (exists_last Hne) as (ys' & r & ->).
  rewrite terminated_app, terminated_cons. unfold Py.endswith.
  rewrite slast_app.
  - rewrite slast_app by discriminate. cbn. apply Ascii.eqb_refl.
  - destruct r; discriminate.
Qed.

(** The values of a command that ends with exit code 0. *)
Lemma git_iter_chunks (raises : bool) (cmd : string) (p : Proc) :
  p_exit p = 0%Z ->
  it_chunks (git_iter raises cmd c p) =
  fst (feed c [] (p_blocks p)) ++ final_chunk (snd (feed c [] (p_blocks p))).
Proof.
  intros H. unfold git_iter. destruct (feed c [] (p_blocks p)) as [ys pend].
  now rewrite H.
Qed.

End Chunker.

Section Remainder.

Variable c : ascii.

Lemma endswith_find (s : string) :
  Py.endswith c s = true -> Py.find c s <> None.
Proof.
  unfold Py.endswith. induction s as [|x s IH]; [discriminate|].
  cbn [Py.last Py.find]. destruct (Ascii.eqb x c) eqn:E; [discriminate|].
  destruct s as [|y s]; [now rewrite E|].
  intros H. specialize (IH H). now destruct (Py.find c (String y s)).
Qed.

Lemma endswith_tail (x : ascii) (s : string) :
  Py.endswith c (String x s) = true -> s = "" \/ Py.endswith c s = true.
Proof. destruct s as [|y s]; [now left|]. intros H. now right. Qed.

(** A stream splits in one way into a part that is empty or ends with the
    delimiter and a rest without delimiter. *)
Lemma remainder_unique (a : string) :
  forall b r1 r2,
    a +:+ r1 = b +:+ r2 ->
    (a = "" \/ Py.endswith c a = true) ->
    (b = "" \/ Py.endswith c b = true) ->
    Py.find c r1 = None -> Py.find c r2 = None ->
    r1 = r2.
Proof.
  induction a as [|x a IH]; intros b r1 r2 E Ha Hb F1 F2.
  - rewrite sapp_nil_l in E. subst r1.
    destruct Hb as [->|Hb]; [reflexivity|].
    apply endswith_find in Hb. rewrite find_app in F1.
    destruct (Py.find c b); congruence.
  - destruct Ha as [Ha|Ha]; [discriminate|].
    destruct b as [|y b].
    + rewrite sapp_nil_l in E. subst r2.
      apply endswith_find in Ha. rewrite find_app in F2.
      destruct (Py.find c (String x a)); congruence.
    + rewrite !sapp_cons in E. injection E as -> E.
      destruct Hb as [Hb|Hb]; [discriminate|].
      apply (IH b r1 r2 E); [eapply endswith_tail; eassumption
                            |eapply endswith_tail; eassumption| |]; assumption.
Qed.

End Remainder.

(** C3, as amended.  For a command that exits with status 0 and every
    one-character delimiter: the values yielded by [git_iter], joined with
    the delimiter, are the contents of the stream when these do not end
    with the delimiter, and the contents without their last delimiter when
    they do (every value is ended, not separated, by the delimiter); and
    when the stream ends in a non-empty rest without delimiter, that rest
    is the last value yielded. *)
Theorem git_iter_rejoin (raises : bool) (cmd : string) (sep : ascii) (p : Proc) :
  p_exit p = 0%Z ->
  let out := it_chunks (git_iter raises cmd sep p) in
  (if Py.endswith sep (contents p)
   then Py.join (Py.chr sep) out +:+ Py.chr sep
   else Py.join (Py.chr sep) out) = contents p
  /\ (forall body rest,
        contents p = body +:+ rest ->
        rest <> "" -> Py.find sep rest = None ->
        body = "" \/ Py.endswith sep body = true ->
        exists init, out = init ++ [rest]).
Proof.
  intros Hexit out. subst out. rewrite (git_iter_chunks sep raises cmd p Hexit).
  destruct (feed sep [] (p_blocks p)) as [ys pend] eqn:E.
  apply feed_spec in E. destruct E as [E F]. specialize (F eq_refl).
  change (Py.join "" []) with "" in E. rewrite sapp_nil_l in E.
  fold (contents p) in E. cbn [fst snd]. unfold final_chunk.
  set (r := Py.join "" pend) in *.
  assert (Hys : ys = [] \/ Py.endswith sep (terminated sep ys) = true).
  { destruct ys as [|y ys]; [now left|right].
    now apply endswith_terminated. }
  destruct (Py.truthy r) eqn:T.
  - apply truthy_true in T. split.
    + rewrite <- E at 1. rewrite endswith_free by assumption.
      now rewrite join_terminated_snoc.
    + intros body rest Hc Hr Hf Hb. exists ys. f_equal. f_equal.
      rewrite <- E in Hc.
      apply (remainder_unique sep (terminated sep ys) body r rest Hc); auto.
      destruct Hys as [->|Hys]; [now left|now right].
  - apply truthy_false in T. rewrite T, sapp_nil_r in E.
    rewrite List.app_nil_r. split.
    + destruct ys as [|y ys].
      * cbn in E. now rewrite <- E.
      * rewrite <- E at 1. rewrite endswith_terminated by discriminate.
        rewrite join_terminated by discriminate. exact E.
    + intros body rest Hc Hr Hf Hb. exfalso. apply Hr. symmetry.
      rewrite <- E in Hc. rewrite <- (sapp_nil_r (terminated sep ys)) in Hc.
      apply (remainder_unique sep (terminated sep ys) body "" rest Hc); auto.
      destruct Hys as [->|Hys]; [now left|now right].
Qed.

(** The stream [a b NUL c d], delivered in the blocks [a b NUL c] and [d],
    exits with 0 and ends in the rest [c d]. *)
Lemma git_iter_rejoin_witness :
  let p := ok ["ab" +:+ Py.chr "000" +:+ "c"; "d"] in
  let out := it_chunks (git_iter true "git" "000" p) in
  Py.join (Py.chr "000") out = contents p /\ exists init, out = init ++ ["cd"].
Proof.
  intros p out.
  destruct (git_iter_rejoin true "git" "000" p eq_refl) as [H1 H2]. split.
  - exact H1.
  - apply (H2 ("ab" +:+ Py.chr "000") "cd").
    + reflexivity.
    + discriminate.
    + reflexivity.
    + right. reflexivity.
Defined.

(** C3, as stated, fails: the stream [a NUL] yields the one value [a], and
    joining gives [a], not [a NUL]. *)
Lemma git_iter_rejoin_counterexample :
  Py.join (Py.chr "000") (it_chunks (git_iter false "git" "000" (ok ["a" +:+ Py.chr "000"])))
  <> contents (ok ["a" +:+ Py.chr "000"]).
Proof. vm_compute. discriminate. Qed.

(** ** Status label *)

(** C5, as amended.  For every record whose code is two characters [x y]
    other than the untracked code: the label is [ignored] for the ignored
    code; otherwise, when the staged character is not blank and the
    working character is blank, the entry of the staged character in the
    table (A add, D rm, M mod, T chmod, ? out, ! ignored, U unmerged, any
    other character itself); otherwise, when the working character is
    not blank, the entry of that character; otherwise the empty string. *)
Theorem statusText_label (x y : ascii) (a d : option string) :
  String x (String y "") <> "??" ->
  statusText (mkFileStatus (String x (String y "")) a d) = Some (table_label x y).
Proof.
  intros _. unfold statusText, table_label, FileStatus_eq_str. cbn [status].
  destruct (String.eqb_spec (String x (String y "")) "!!") as [E|_]; [|reflexivity].
  injection E as -> ->. reflexivity.
Qed.

Lemma statusText_label_witness :
  statusText (mkFileStatus "M " None (Some "+1/-0")) = Some "mod".
Proof.
  apply (statusText_label "M" " " None (Some "+1/-0")). discriminate.
Defined.

(** C5, as stated, fails: a conflicted file has code [UU], for which the
    claim gives the character [U] and the code gives [unmerged]. *)
Lemma statusText_label_counterexample :
  claimed_label "UU" = Some "U"
  /\ statusText (mkFileStatus "UU" None None) = Some "unmerged"
  /\ statusText (mkFileStatus "UU" None None) <> claimed_label "UU".
Proof. repeat split. discriminate. Qed.

(** ** Cache read *)

(** C10.  For a row whose path has no record in the cache, [git_status]
    returns a record with code [//] and no deltas and stores it in the
    cache: the cache afterwards holds that record under the path, every
    other entry is as before, and the ignored check on the path reads the
    stored code and answers no. *)
Theorem git_status_unknown (h : Host) (cache : gmap string FileStatus) (r : GitFile) :
  cache !! filename r = None ->
  let fresh := mkFileStatus "//" None None in
  fst (git_status cache (Some r)) = Some fresh
  /\ snd (git_status cache (Some r)) = <[filename r := fresh]> cache
  /\ snd (git_status cache (Some r)) !! filename r = Some fresh
  /\ snd (git_status cache (Some r)) <> cache
  /\ ignored h (snd (git_status cache (Some r))) (filename r) = false.
Proof.
  intros Hnone fresh. unfold git_status. rewrite Hnone. cbn [fst snd].
  repeat split.
  - apply lookup_insert_eq.
  - intros E. apply (f_equal (fun m => m !! filename r)) in E.
    rewrite lookup_insert_eq, Hnone in E. discriminate.
  - unfold ignored. rewrite lookup_insert_eq. now destruct (vgit_show_ignored h).
Qed.

Lemma git_status_unknown_witness :
  let r := GitFile_init (mkPath "a.txt" "a.txt" false ".txt" 0 0) in
  snd (git_status ∅ (Some r)) !! "a.txt" = Some (mkFileStatus "//" None None).
Proof.
  intros r.
  destruct (git_status_unknown (mkHost false false [] (fun fn => mkPath fn fn false "" 0 0))
              ∅ r (lookup_empty _)) as (_ & _ & H & _).
  exact H.
Defined.

(** ** Sequences of statements *)

Lemma last_cons {A} (l : list A) :
  forall x d, List.last (x :: l) d = List.last l x.
Proof.
  induction l as [|a l IH]; intros x d; [reflexivity|].
  change (List.last (x :: a :: l) d) with (List.last (a :: l) d).
  now rewrite !IH.
Qed.

Lemma run_exec (acts : list Action) :
  forall s, List.last (fst (run acts s)) s = fst (exec acts s)
            /\ snd (run acts s) = snd (exec acts s).
Proof.
  induction acts as [|a rest IH]; intros s; [now split|].
  cbn [run exec]. destruct (a s) as [s' [|e]]; [|now split].
  specialize (IH s'). destruct (run rest s') as [tr o] eqn:E.
  cbn [fst snd] in *. destruct IH as [IH1 IH2]. split; [|exact IH2].
  now rewrite last_cons.
Qed.

Lemma exec_app (a b : list Action) (s : Sheet) :
  exec (a ++ b) s =
  match exec a s with
  | (s1, Finished) => exec b s1
  | (s1, Raised e) => (s1, Raised e)
  end.
Proof.
  revert s. induction a as [|x a IH]; intros s; [reflexivity|].
  cbn [app exec]. destruct (x s) as [s' [|e]]; [apply IH|reflexivity].
Qed.

Lemma exec_app_finished (a b : list Action) (s s' : Sheet) :
  exec (a ++ b) s = (s', Finished) ->
  exists s1, exec a s = (s1, Finished) /\ exec b s1 = (s', Finished).
Proof.
  rewrite exec_app. destruct (exec a s) as [s1 [|e]]; [|discriminate].
  intros H. now exists s1.
Qed.

Lemma exec_steps {A} (f : A -> Sheet -> Sheet) (l : list A) (s : Sheet) :
  exec (map (fun x => step (f x)) l) s = (fold_left (fun s x => f x s) l s, Finished).
Proof.
  revert s. induction l as [|x l IH]; intros s; [reflexivity|].
  cbn [map exec step fold_left]. apply IH.
Qed.

Lemma exec_for_iter (it : Iter) (body : string -> Action) (s : Sheet) :
  exec (for_iter it body) s =
  match exec (map body (it_chunks it)) s with
  | (s1, Finished) => (report (it_events it) s1, it_outcome it)
  | (s1, Raised e) => (s1, Raised e)
  end.
Proof.
  unfold for_iter. rewrite exec_app.
  destruct (exec (map body (it_chunks it)) s) as [s1 [|e]]; [|reflexivity].
  cbn [exec]. now destruct (it_outcome it).
Qed.

Lemma exec_for_iter_finished (it : Iter) (body : string -> Action) (s s' : Sheet) :
  exec (for_iter it body) s = (s', Finished) ->
  exists s1, exec (map body (it_chunks it)) s = (s1, Finished)
             /\ s' = report (it_events it) s1 /\ it_outcome it = Finished.
Proof.
  rewrite exec_for_iter.
  destruct (exec (map body (it_chunks it)) s) as [s1 [|e]]; [|discriminate].
  intros [= <- Ho]. now exists s1.
Qed.

(** The statements of [reload], by phase. *)
Lemma reload_actions_phases (h : Host) (inp : Inputs) :
  reload_actions h inp =
  [ set_branch h inp; set_remotediff h inp;
    step (set_rows (fun _ => [])); step (set_cache (fun _ => ∅)) ]
  ++ for_iter (ls_files_iter h inp) ls_files_body
  ++ for_iter (status_iter h inp) (status_body h inp)
  ++ for_iter (numstat_iter Unstaged h inp) (numstat_body Unstaged)
  ++ for_iter (numstat_iter Staged h inp) (numstat_body Staged)
  ++ map (candidate_body h) (filenames inp)
  ++ [ step (orderBy_desc last_column); step (fun s => s) ].
Proof. reflexivity. Qed.

Lemma exec_reset (h : Host) (inp : Inputs) (s : Sheet) :
  exec [ set_branch h inp; set_remotediff h inp;
         step (set_rows (fun _ => [])); step (set_cache (fun _ => ∅)) ] s
  = (reset h inp s, Finished).
Proof. reflexivity. Qed.

(** A reload that runs to its end, phase by phase. *)
Lemma reload_finished (h : Host) (inp : Inputs) (s : Sheet) :
  snd (reload h inp s) = Finished ->
  exists s3 s4,
    let s1 := report (it_events (ls_files_iter h inp))
                (fold_left (fun s fn => fst (ls_files_body fn s))
                           (it_chunks (ls_files_iter h inp)) (reset h inp s)) in
    let s2 := report (it_events (status_iter h inp))
                (fold_left (fun s line => status_step h inp line s)
                           (it_chunks (status_iter h inp)) s1) in
    let s5 := fold_left (fun s item => candidate_step h item s) (filenames inp)
                (report (it_events (numstat_iter Staged h inp)) s4) in
    exec (map (numstat_body Unstaged) (it_chunks (numstat_iter Unstaged h inp))) s2
      = (s3, Finished)
    /\ exec (map (numstat_body Staged) (it_chunks (numstat_iter Staged h inp)))
            (report (it_events (numstat_iter Unstaged h inp)) s3)
      = (s4, Finished)
    /\ it_outcome (ls_files_iter h inp) = Finished
    /\ it_outcome (status_iter h inp) = Finished
    /\ it_outcome (numstat_iter Unstaged h inp) = Finished
    /\ it_outcome (numstat_iter Staged h inp) = Finished
    /\ reload_final h inp s = orderBy_desc last_column s5.
Proof.
  intros Hfin. unfold reload_final.
  destruct (run_exec (reload_actions h inp) s) as [Hlast Hout].
  unfold reload in *. rewrite Hlast. rewrite Hout in Hfin. clear Hlast Hout.
  destruct (exec (reload_actions h inp) s) as [sf o] eqn:E.
  cbn [snd] in Hfin. subst o. cbn [fst].
  rewrite reload_actions_phases in E.
  apply exec_app_finished in E. destruct E as (r0 & E0 & E).
  rewrite exec_reset in E0. injection E0 as <-.
  apply exec_app_finished in E. destruct E as (r1 & E1 & E).
  apply exec_for_iter_finished in E1. destruct E1 as (r1' & E1 & -> & O1).
  apply exec_app_finished in E. destruct E as (r2 & E2 & E).
  apply exec_for_iter_finished in E2. destruct E2 as (r2' & E2 & -> & O2).
  apply exec_app_finished in E. destruct E as (r3 & E3 & E).
  apply exec_for_iter_finished in E3. destruct E3 as (r3' & E3 & -> & O3).
  apply exec_app_finished in E. destruct E as (r4 & E4 & E).
  apply exec_for_iter_finished in E4. destruct E4 as (r4' & E4 & -> & O4).
  apply exec_app_finished in E. destruct E as (r5 & E5 & E).
  unfold ls_files_body in E1.
  rewrite (exec_steps (fun fn => set_cache (fun cache => <[fn := mkFileStatus "  " None None]> cache))) in E1.
  injection E1 as <-.
  assert (E2' : exec (map (status_body h inp) (it_chunks (status_iter h inp)))
                  (report (it_events (ls_files_iter h inp))
                     (fold_left (fun s fn => fst (ls_files_body fn s))
                        (it_chunks (ls_files_iter h inp)) (reset h inp s)))
                = (r2', Finished)) by exact E2.
  clear E2.
  unfold status_body in E2'.
  rewrite (exec_steps (fun line s => fst (status_body h inp line s))) in E2'.
  injection E2' as <-.
  unfold candidate_body in E5.
  rewrite (exec_steps (fun item s => fst (candidate_body h item s))) in E5.
  injection E5 as <-.
  cbn [exec step] in E. injection E as <-.
  exists r3', r4'. cbn zeta. repeat split; assumption.
Qed.

(** ** Splitting *)

Lemma split_free (c : ascii) (a : string) :
  Py.find c a = None -> PyStr.split c a = [a].
Proof.
  induction a as [|x a IH]; [reflexivity|]. cbn [Py.find PyStr.split].
  destruct (Ascii.eqb x c); [discriminate|]. intros H.
  rewrite IH; [reflexivity|]. now destruct (Py.find c a).
Qed.

Lemma split_field (c : ascii) (a b : string) :
  Py.find c a = None ->
  PyStr.split c (a +:+ String c b) = a :: PyStr.split c b.
Proof.
  induction a as [|x a IH].
  - intros _. rewrite sapp_nil_l. cbn [PyStr.split]. now rewrite Ascii.eqb_refl.
  - rewrite sapp_cons. cbn [Py.find PyStr.split].
    destruct (Ascii.eqb x c); [discriminate|]. intros H.
    rewrite IH; [reflexivity|]. now destruct (Py.find c a).
Qed.

Lemma split_numstat_line (a d fn : string) :
  Py.find tab a = None -> Py.find tab d = None -> Py.find tab fn = None ->
  PyStr.split tab (numstat_line a d fn) = [a; d; fn].
Proof.
  intros Ha Hd Hf. unfold numstat_line.
  now rewrite (split_field tab a) by assumption;
      rewrite (split_field tab d) by assumption;
      rewrite split_free.
Qed.

Lemma numstat_line_truthy (a d fn : string) : Py.truthy (numstat_line a d fn) = true.
Proof. unfold numstat_line. destruct a; reflexivity. Qed.

(** ** The loop bodies of [reload] on the cache and the rows *)

Lemma numstat_body_line (w : Numstat) (a d fn : string) (s : Sheet) :
  Py.find tab a = None -> Py.find tab d = None -> Py.find tab fn = None ->
  numstat_body w (numstat_line a d fn) s =
  (set_cache (fun cache =>
     <[fn := set_delta w (delta a d)
               (default (mkFileStatus (seed w) None None) (cache !! fn))]> cache) s,
   Finished).
Proof.
  intros Ha Hd Hf. unfold numstat_body.
  rewrite numstat_line_truthy. cbn [negb].
  change "009"%char with tab. rewrite split_numstat_line by assumption.
  unfold set_cache. cbn [cachedStatus]. f_equal. f_equal.
  fold (delta a d). apply map_eq. intros k.
  destruct (decide (fn = k)) as [<-|Hne].
  - rewrite lookup_insert_eq.
    destruct (cachedStatus s !! fn) as [st|] eqn:E.
    + now rewrite lookup_alter_eq, E.
    + now rewrite lookup_alter_eq, lookup_insert_eq.
  - rewrite lookup_insert_ne by assumption.
    rewrite lookup_alter_ne by assumption.
    destruct (cachedStatus s !! fn); [reflexivity|].
    now rewrite lookup_insert_ne.
Qed.

Lemma numstat_body_rows (w : Numstat) (line : string) (s : Sheet) :
  rows (fst (numstat_body w line s)) = rows s
  /\ branch (fst (numstat_body w line s)) = branch s
  /\ remotediff (fst (numstat_body w line s)) = remotediff s.
Proof.
  unfold numstat_body. destruct (negb (Py.truthy line)); [now repeat split|].
  destruct (PyStr.split "009" line) as [|a [|d [|fn [|]]]]; now repeat split.
Qed.

(** A chunk that is not a line for [p] leaves the record of [p] alone. *)
Lemma numstat_body_other (w : Numstat) (p line : string) (s : Sheet) :
  not_for p line ->
  cachedStatus (fst (numstat_body w line s)) !! p = cachedStatus s !! p.
Proof.
  intros Hnot. unfold numstat_body. destruct (negb (Py.truthy line)); [reflexivity|].
  change "009"%char with tab.
  destruct (PyStr.split tab line) as [|a [|d [|fn [|]]]] eqn:E; try reflexivity.
  cbn [fst set_cache cachedStatus].
  assert (fn <> p) as Hne by (intros ->; now apply (Hnot a d)).
  rewrite lookup_alter_ne by assumption.
  destruct (cachedStatus s !! fn); [reflexivity|].
  now rewrite lookup_insert_ne.
Qed.

(** No numstat line removes a record or changes its code or the field of
    the other query. *)
Lemma numstat_body_keeps (w : Numstat) (p line : string) (s : Sheet) (st : FileStatus) :
  cachedStatus s !! p = Some st ->
  exists st', cachedStatus (fst (numstat_body w line s)) !! p = Some st'
    /\ status st' = status st
    /\ match w with
       | Unstaged => dels st' = dels st
       | Staged => adds st' = adds st
       end.
Proof.
  intros Hst. unfold numstat_body. destruct (negb (Py.truthy line)).
  { exists st. now destruct w. }
  destruct (PyStr.split "009" line) as [|a [|d [|fn [|]]]] eqn:E;
    try (exists st; now destruct w).
  cbn [fst set_cache cachedStatus].
  destruct (decide (fn = p)) as [->|Hne].
  - rewrite Hst, lookup_alter_eq, Hst. cbn.
    eexists. split; [reflexivity|]. now destruct w.
  - rewrite lookup_alter_ne by assumption. exists st.
    split; [|now destruct w].
    destruct (cachedStatus s !! fn); [assumption|].
    now rewrite lookup_insert_ne.
Qed.

(** ** The numstat loops *)

Lemma numstat_loop_other (w : Numstat) (p : string) (l : list string) :
  forall s, Forall (not_for p) l ->
    cachedStatus (fst (exec (map (numstat_body w) l) s)) !! p = cachedStatus s !! p.
Proof.
  induction l as [|line l IH]; intros s Hall; [reflexivity|].
  inversion Hall as [|? ? Hline Hrest]; subst.
  cbn [map exec].
  pose proof (numstat_body_other w p line s Hline) as Hb.
  destruct (numstat_body w line s) as [s1 [|e]]; cbn [fst] in *.
  - now rewrite IH.
  - exact Hb.
Qed.

Lemma numstat_loop_keeps (w : Numstat) (p : string) (l : list string) :
  forall s st, cachedStatus s !! p = Some st ->
    exists st', cachedStatus (fst (exec (map (numstat_body w) l) s)) !! p = Some st'
      /\ status st' = status st
      /\ match w with
         | Unstaged => dels st' = dels st
         | Staged => adds st' = adds st
         end.
Proof.
  induction l as [|line l IH]; intros s st Hst.
  { exists st. now destruct w. }
  cbn [map exec].
  destruct (numstat_body_keeps w p line s st Hst) as (st1 & H1 & Hs1 & Hf1).
  destruct (numstat_body w line s) as [s1 [|e]]; cbn [fst] in *.
  - destruct (IH s1 st1 H1) as (st2 & H2 & Hs2 & Hf2).
    exists st2. split; [assumption|]. split; [congruence|].
    destruct w; congruence.
  - now exists st1.
Qed.

Lemma numstat_loop_rows (w : Numstat) (l : list string) :
  forall s, rows (fst (exec (map (numstat_body w) l) s)) = rows s
            /\ branch (fst (exec (map (numstat_body w) l) s)) = branch s
            /\ remotediff (fst (exec (map (numstat_body w) l) s)) = remotediff s.
Proof.
  induction l as [|line l IH]; intros s; [now repeat split|].
  cbn [map exec].
  pose proof (numstat_body_rows w line s) as Hb.
  destruct (numstat_body w line s) as [s1 [|e]]; cbn [fst] in *.
  - destruct (IH s1) as (A & B & C). repeat split; intuition congruence.
  - exact Hb.
Qed.

(** The last line for a path decides its field. *)
Lemma numstat_loop_last (w : Numstat) (a d p : string) (pre post : list string)
  (s s' : Sheet) :
  Py.find tab a = None -> Py.find tab d = None -> Py.find tab p = None ->
  Forall (not_for p) post ->
  exec (map (numstat_body w) (pre ++ numstat_line a d p :: post)) s = (s', Finished) ->
  exists st, cachedStatus s' !! p = Some st /\ delta_field w st = Some (delta a d).
Proof.
  intros Ha Hd Hp Hpost E. rewrite map_app in E.
  apply exec_app_finished in E. destruct E as (s1 & _ & E).
  cbn [map exec] in E. rewrite numstat_body_line in E by assumption.
  pose proof (numstat_loop_other w p post
    (set_cache (fun cache =>
       <[p := set_delta w (delta a d)
                (default (mkFileStatus (seed w) None None) (cache !! p))]> cache) s1)
    Hpost) as H.
  rewrite E in H. cbn [fst] in H. rewrite H. cbn [set_cache cachedStatus].
  rewrite lookup_insert_eq. eexists. split; [reflexivity|]. now destruct w.
Qed.

(** ** The last loop and the sort *)

Lemma candidate_step_cache (h : Host) (item : string * GitFile) (s : Sheet) :
  cachedStatus (candidate_step h item s) = cachedStatus s.
Proof.
  unfold candidate_step, candidate_body, step. cbn [fst].
  now destruct (negb (ignored h (cachedStatus s) (filename (snd item)))).
Qed.

Lemma candidate_loop_cache (h : Host) (items : list (string * GitFile)) :
  forall s, cachedStatus (fold_left (fun s item => candidate_step h item s) items s)
            = cachedStatus s.
Proof.
  induction items as [|item items IH]; intros s; [reflexivity|].
  cbn [fold_left]. now rewrite IH, candidate_step_cache.
Qed.

Lemma candidate_loop_rows (h : Host) (items : list (string * GitFile)) :
  forall s, rows (fold_left (fun s item => candidate_step h item s) items s)
            = rows s
              ++ List.filter (fun gf => negb (ignored h (cachedStatus s) (filename gf)))
                             (map snd items).
Proof.
  induction items as [|item items IH]; intros s.
  { cbn. now rewrite List.app_nil_r. }
  cbn [fold_left map List.filter]. rewrite IH, candidate_step_cache.
  unfold candidate_step, candidate_body, step. cbn [fst].
  destruct (negb (ignored h (cachedStatus s) (filename (snd item)))).
  - cbn [addRow set_rows rows]. now rewrite <- List.app_assoc.
  - reflexivity.
Qed.

Lemma keyed_pure (f : GitFile -> Cell)
  (g : gmap string FileStatus -> GitFile -> Cell * gmap string FileStatus)
  (cache : gmap string FileStatus) (rs : list GitFile) :
  (forall m r, g m r = (f r, m)) ->
  keyed g cache rs = (map (fun r => (f r, r)) rs, cache).
Proof.
  intros Hg. induction rs as [|r rs IH]; [reflexivity|].
  cbn [keyed map]. now rewrite Hg, IH.
Qed.

Lemma keyed_last_column (cache : gmap string FileStatus) (rs : list GitFile) :
  keyed (col_getter last_column) cache rs
  = (map (fun r => (CInt (path_mtime (path r)), r)) rs, cache).
Proof. now apply keyed_pure. Qed.

Lemma orderBy_last_column (s : Sheet) :
  orderBy_desc last_column s
  = set_rows (fun rs =>
      map snd (sort_desc (map (fun r => (CInt (path_mtime (path r)), r)) rs))) s.
Proof. unfold orderBy_desc. now rewrite keyed_last_column. Qed.

(** ** Numeric-stats merge *)

Lemma reload_final_cache (h : Host) (inp : Inputs) (s : Sheet) :
  snd (reload h inp s) = Finished ->
  exists s3 s4,
    exec (map (numstat_body Unstaged) (it_chunks (numstat_iter Unstaged h inp)))
         (report (it_events (status_iter h inp))
            (fold_left (fun s line => status_step h inp line s)
               (it_chunks (status_iter h inp))
               (report (it_events (ls_files_iter h inp))
                  (fold_left (fun s fn => fst (ls_files_body fn s))
                     (it_chunks (ls_files_iter h inp)) (reset h inp s)))))
      = (s3, Finished)
    /\ exec (map (numstat_body Staged) (it_chunks (numstat_iter Staged h inp)))
            (report (it_events (numstat_iter Unstaged h inp)) s3)
       = (s4, Finished)
    /\ cachedStatus (reload_final h inp s) = cachedStatus s4.
Proof.
  intros Hfin. destruct (reload_finished h inp s Hfin) as (s3 & s4 & H).
  cbn zeta in H. destruct H as (E3 & E4 & _ & _ & _ & _ & Ef).
  exists s3, s4. split; [exact E3|]. split; [exact E4|].
  rewrite Ef, orderBy_last_column. cbn [set_rows cachedStatus].
  now rewrite candidate_loop_cache.
Qed.



(** ** The status loop *)

Lemma status_step_spec (h : Host) (inp : Inputs) (line : string) (s : Sheet) :
  status_step h inp line s =
  if Py.truthy line then
    let gf := reported_file h line in
    let s1 := set_cache (fun cache =>
                <[filename gf := mkFileStatus (fst (status_fields line)) None None]> cache) s in
    if shows_row h inp line then addRow gf s1 else s1
  else s.
Proof.
  unfold status_step, status_body, step, shows_row, reported_file, classified_ignored.
  cbn [fst]. destruct (Py.truthy line); [|reflexivity].
  destruct (status_fields line) as [st fn]. cbn [fst snd andb].
  set (gf := GitFile_init (joinpath h fn)).
  unfold ignored. cbn [set_cache cachedStatus]. rewrite lookup_insert_eq. cbn [status].
  destruct (Dict.has (filename gf) (filenames inp)); cbn [negb andb]; [reflexivity|].
  now destruct (vgit_show_ignored h).
Qed.

Lemma status_fields_malformed (line : string) :
  Py.take 1 (Py.drop 2 line) <> " " -> status_fields line = ("//", line).
Proof.
  intros H. unfold status_fields.
  now destruct (String.eqb_spec (Py.take 1 (Py.drop 2 line)) " ").
Qed.

(** C9.  A non-empty status chunk whose third character is not a space is
    taken whole as the path: the row file is built on the chunk itself,
    the cache gets the record with code [//] and no deltas under the
    path of that file, a row is added unless the path is a candidate of
    the directory listing, the statement ends normally, and the status
    loop over any chunks, with such a chunk among them, runs to its
    end. *)
Theorem malformed_status_chunk (h : Host) (inp : Inputs) (line : string) :
  Py.truthy line = true ->
  Py.take 1 (Py.drop 2 line) <> " " ->
  let gf := GitFile_init (joinpath h line) in
  (forall s, exists s',
      status_body h inp line s = (s', Finished)
      /\ cachedStatus s' = <[filename gf := mkFileStatus "//" None None]> (cachedStatus s)
      /\ rows s' = rows s ++ (if Dict.has (filename gf) (filenames inp) then [] else [gf]))
  /\ (forall pre post s,
        snd (exec (map (status_body h inp) (pre ++ line :: post)) s) = Finished).
Proof.
  intros Ht Hm gf. split.
  - intros s. exists (status_step h inp line s). split; [reflexivity|].
    rewrite status_step_spec, Ht. unfold shows_row, reported_file, classified_ignored.
    rewrite Ht, (status_fields_malformed line Hm). cbn [fst snd]. fold gf.
    rewrite andb_false_r. cbn [negb andb]. rewrite andb_true_r.
    destruct (Dict.has (filename gf) (filenames inp)); cbn [negb].
    + split; [reflexivity|]. cbn. now rewrite List.app_nil_r.
    + split; reflexivity.
  - intros pre post s. unfold status_body.
    now rewrite (exec_steps (fun l s => fst (status_body h inp l s))).
Qed.

(** The source of a rename in [status -z] comes as a bare path. *)
Lemma malformed_status_chunk_witness :
  exists s', status_body demo_host (mkInputs [] (ok []) (ok []) (ok []) (ok []) (ok []) (ok []))
               "old.txt" blank = (s', Finished)
             /\ cachedStatus s' !! "old.txt" = Some (mkFileStatus "//" None None).
Proof.
  destruct (malformed_status_chunk demo_host
              (mkInputs [] (ok []) (ok []) (ok []) (ok []) (ok []) (ok []))
              "old.txt" eq_refl) as [H _]; [discriminate|].
  destruct (H blank) as (s' & E & Hc & _).
  exists s'. split; [exact E|]. rewrite Hc. reflexivity.
Defined.

Lemma status_loop_rows (h : Host) (inp : Inputs) (chunks : list string) :
  forall s,
    rows (fold_left (fun s line => status_step h inp line s) chunks s)
    = rows s ++ map (reported_file h) (List.filter (shows_row h inp) chunks).
Proof.
  induction chunks as [|line chunks IH]; intros s.
  { cbn. now rewrite List.app_nil_r. }
  cbn [fold_left List.filter]. rewrite IH, status_step_spec.
  unfold shows_row at 1 3.
  destruct (Py.truthy line); cbn [andb]; [|reflexivity].
  fold (shows_row h inp line).
  destruct (negb (Dict.has (filename (reported_file h line)) (filenames inp))
            && negb (classified_ignored h line)); [|reflexivity].
  cbn [map addRow set_rows set_cache rows]. now rewrite <- List.app_assoc.
Qed.

Lemma ls_files_loop_rows (chunks : list string) :
  forall s, rows (fold_left (fun s fn => fst (ls_files_body fn s)) chunks s) = rows s.
Proof.
  induction chunks as [|fn chunks IH]; intros s; [reflexivity|].
  cbn [fold_left]. now rewrite IH.
Qed.

(** ** The sort *)

Lemma cell_leb_total (a b : Cell) : cell_leb a b = true \/ cell_leb b a = true.
Proof.
  destruct a as [| |x|x|x], b as [| |y|y|y]; cbn; auto.
  - destruct (Z.leb_spec x y); [now left|right]. apply Z.leb_le. lia.
  - apply String.leb_total.
  - apply String.leb_total.
Qed.

Lemma insert_desc_perm (x : Cell * GitFile) (l : list (Cell * GitFile)) :
  Permutation (insert_desc x l) (x :: l).
Proof.
  induction l as [|y l IH]; [reflexivity|]. cbn [insert_desc].
  destruct (negb (cell_leb (fst y) (fst x))); [|reflexivity].
  rewrite IH. apply perm_swap.
Qed.

Lemma sort_desc_perm (l : list (Cell * GitFile)) : Permutation (sort_desc l) l.
Proof.
  induction l as [|x l IH]; [reflexivity|].
  unfold sort_desc in *. cbn [foldr]. rewrite insert_desc_perm. now constructor.
Qed.

Lemma insert_desc_hd (x y : Cell * GitFile) (l : list (Cell * GitFile)) :
  desc y x -> HdRel desc y l -> HdRel desc y (insert_desc x l).
Proof.
  intros Hyx Hhd. destruct l as [|z l]; cbn [insert_desc]; [now constructor|].
  destruct (negb (cell_leb (fst z) (fst x))); constructor; [|assumption].
  now inversion Hhd.
Qed.

Lemma insert_desc_sorted (x : Cell * GitFile) (l : list (Cell * GitFile)) :
  Sorted desc l -> Sorted desc (insert_desc x l).
Proof.
  induction 1 as [|y l Hs IH Hhd]; cbn [insert_desc].
  { repeat constructor. }
  destruct (cell_leb (fst y) (fst x)) eqn:E; cbn [negb].
  - constructor; [now constructor|]. constructor. exact E.
  - constructor; [exact IH|]. apply insert_desc_hd; [|exact Hhd].
    unfold desc. destruct (cell_leb_total (fst x) (fst y)); congruence.
Qed.

Lemma sort_desc_sorted (l : list (Cell * GitFile)) : Sorted desc (sort_desc l).
Proof.
  induction l as [|x l IH]; [constructor|].
  unfold sort_desc in *. cbn [foldr]. now apply insert_desc_sorted.
Qed.

Lemma Sorted_map {A B} (R : A -> A -> Prop) (R' : B -> B -> Prop) (P : A -> Prop)
  (f : A -> B) (l : list A) :
  (forall x y, P x -> P y -> R x y -> R' (f x) (f y)) ->
  Forall P l -> Sorted R l -> Sorted R' (map f l).
Proof.
  intros HR Hall Hs. induction Hs as [|x l Hs IH Hhd]; [constructor|].
  inversion Hall as [|? ? Px Pl]; subst. cbn [map]. constructor; [now apply IH|].
  destruct Hhd as [|y l Rxy]; constructor.
  inversion Pl; subst. now apply HR.
Qed.

(** Sorting by the last column puts the newest rows first and keeps the
    rows. *)
Lemma orderBy_last_column_sorted (s : Sheet) :
  Sorted newer_first (rows (orderBy_desc last_column s)).
Proof.
  rewrite orderBy_last_column. cbn [set_rows rows].
  set (krs := map (fun r => (CInt (path_mtime (path r)), r)) (rows s)).
  apply (Sorted_map desc newer_first
           (fun kr => fst kr = CInt (path_mtime (path (snd kr))))).
  - intros [k1 r1] [k2 r2] H1 H2 Hd. unfold desc, newer_first in *.
    cbn [fst snd] in *. subst. cbn in Hd. now apply Z.leb_le.
  - apply List.Forall_forall. intros kr Hin.
    apply (Permutation_in _ (sort_desc_perm krs)) in Hin.
    unfold krs in Hin. apply in_map_iff in Hin.
    destruct Hin as (r & <- & _). reflexivity.
  - apply sort_desc_sorted.
Qed.

Lemma orderBy_last_column_perm (s : Sheet) :
  Permutation (rows (orderBy_desc last_column s)) (rows s).
Proof.
  rewrite orderBy_last_column. cbn [set_rows rows].
  rewrite sort_desc_perm, map_map. cbn [snd]. now rewrite map_id.
Qed.

(** ** Candidates of the directory listing *)

Lemma dict_set_in {V} (k : string) (v : V) (d : list (string * V)) (kv : string * V) :
  In kv (Dict.set k v d) -> kv = (k, v) \/ In kv d.
Proof.
  induction d as [|[k' v'] d IH]; cbn [Dict.set].
  - intros [<-|[]]. now left.
  - destruct (String.eqb k' k).
    + intros [<-|H]; [now left|right; now right].
    + intros [<-|H]; [right; now left|].
      destruct (IH H) as [->|H']; [now left|right; now right].
Qed.

Lemma dict_fold_in {V} (l : list (string * V)) :
  forall d kv,
    In kv (fold_left (fun d kv => Dict.set (fst kv) (snd kv) d) l d) ->
    In kv l \/ In kv d.
Proof.
  induction l as [|[k v] l IH]; intros d kv H; [now right|].
  cbn [fold_left fst snd] in H. destruct (IH _ _ H) as [H'|H'].
  - left. now right.
  - destruct (dict_set_in _ _ _ _ H') as [->|H'']; [left; now left|now right].
Qed.

Lemma dict_has_in {V} (k : string) (v : V) (d : list (string * V)) :
  In (k, v) d -> Dict.has k d = true.
Proof.
  intros H. unfold Dict.has. apply existsb_exists. exists (k, v).
  split; [assumption|]. apply String.eqb_refl.
Qed.

(** Every candidate is filed under its own path. *)
Lemma filenames_key (inp : Inputs) (item : string * GitFile) :
  In item (filenames inp) ->
  Dict.has (filename (snd item)) (filenames inp) = true.
Proof.
  intros Hin. pose proof Hin as Hin'. unfold filenames, Dict.of_pairs in Hin'.
  apply dict_fold_in in Hin'. destruct Hin' as [Hin'|[]].
  apply in_map_iff in Hin'. destruct Hin' as (gf & <- & _). cbn [snd].
  now apply (dict_has_in _ gf).
Qed.

(** ** Counting rows *)

Lemma count_rows_app (p : string) (a b : list GitFile) :
  count_rows p (a ++ b) = (count_rows p a + count_rows p b)%nat.
Proof. unfold count_rows. now rewrite List.filter_app, List.length_app. Qed.

Lemma count_rows_perm (p : string) (a b : list GitFile) :
  Permutation a b -> count_rows p a = count_rows p b.
Proof.
  unfold count_rows. induction 1 as [|x a b _ IH|x y a|a b c _ IH1 _ IH2];
    cbn [List.filter]; try congruence.
  - destruct (String.eqb (filename x) p); cbn [length]; congruence.
  - now destruct (String.eqb (filename x) p), (String.eqb (filename y) p).
Qed.

Lemma count_rows_none (p : string) (rs : list GitFile) :
  (forall r, In r rs -> filename r <> p) -> count_rows p rs = 0%nat.
Proof.
  unfold count_rows. induction rs as [|r rs IH]; intros H; [reflexivity|].
  cbn [List.filter]. destruct (String.eqb_spec (filename r) p) as [E|_].
  - exfalso. apply (H r); [now left|assumption].
  - apply IH. intros r' Hr'. apply H. now right.
Qed.

Lemma count_rows_map_filter {A} (p : string) (f : A -> GitFile) (g : A -> bool)
  (l : list A) :
  count_rows p (map f (List.filter g l))
  = length (List.filter (fun x => g x && String.eqb (filename (f x)) p) l).
Proof.
  unfold count_rows. induction l as [|x l IH]; [reflexivity|].
  cbn [List.filter]. destruct (g x); cbn [andb map List.filter]; [|exact IH].
  destruct (String.eqb (filename (f x)) p); cbn [length]; now rewrite IH.
Qed.

Lemma candidates_not (inp : Inputs) (p : string) :
  Dict.has p (filenames inp) = false ->
  forall r, In r (map snd (filenames inp)) -> filename r <> p.
Proof.
  intros Hp r Hin E. apply in_map_iff in Hin. destruct Hin as (item & <- & Hin).
  apply filenames_key in Hin. congruence.
Qed.

(** ** Rows of paths that only the status query reports *)

(** C7, as amended.  In a reload that runs to its end, a path that is no
    candidate of the directory listing has as many rows as the status
    query has non-empty chunks that report it and are not classified as
    ignored: exactly one row when the status query reports it once.  No
    candidate has that path, so the last loop adds no row for it. *)
Theorem status_only_rows (h : Host) (inp : Inputs) (s : Sheet) (p : string) :
  snd (reload h inp s) = Finished ->
  Dict.has p (filenames inp) = false ->
  count_rows p (rows (reload_final h inp s))
  = length (List.filter (reports h p) (it_chunks (status_iter h inp)))
  /\ count_rows p (map snd (filenames inp)) = 0%nat.
Proof.
  intros Hfin Hp. split; [|now apply count_rows_none, candidates_not].
  destruct (reload_finished h inp s Hfin) as (s3 & s4 & H). cbn zeta in H.
  destruct H as (E3 & E4 & _ & _ & _ & _ & ->).
  rewrite (count_rows_perm p _ _ (orderBy_last_column_perm _)).
  rewrite candidate_loop_rows, count_rows_app.
  rewrite (count_rows_none p (List.filter _ _)).
  2:{ intros r Hr. apply List.filter_In in Hr. destruct Hr as [Hr _].
      now apply (candidates_not inp p Hp). }
  cbn [report rows].
  pose proof (numstat_loop_rows Staged (it_chunks (numstat_iter Staged h inp))
                (report (it_events (numstat_iter Unstaged h inp)) s3)) as (R4 & _).
  rewrite E4 in R4. cbn [fst report rows] in R4. rewrite R4.
  match type of E3 with exec _ ?s2 = _ =>
    pose proof (numstat_loop_rows Unstaged (it_chunks (numstat_iter Unstaged h inp)) s2)
      as (R3 & _) end.
  rewrite E3 in R3. cbn [fst report rows] in R3. rewrite R3.
  rewrite status_loop_rows. cbn [report rows]. rewrite ls_files_loop_rows.
  cbn [reset set_cache set_rows rows app].
  rewrite count_rows_map_filter, Nat.add_0_r. f_equal.
  apply List.filter_ext. intros line. unfold shows_row, reports.
  destruct (String.eqb_spec (filename (reported_file h line)) p) as [->|_].
  - rewrite Hp. cbn [negb]. now destruct (Py.truthy line), (classified_ignored h line).
  - now rewrite !andb_false_r, andb_false_l || (rewrite !andb_false_r;
        destruct (Py.truthy line); reflexivity).
Qed.

(** The deleted file [gone.txt] is reported once and has one row. *)
Lemma status_only_rows_witness :
  count_rows "gone.txt" (rows (reload_final demo_host one_deleted blank)) = 1%nat.
Proof.
  assert (Hfin : snd (reload demo_host one_deleted blank) = Finished)
    by (vm_compute; reflexivity).
  assert (Hp : Dict.has "gone.txt" (filenames one_deleted) = false)
    by (vm_compute; reflexivity).
  destruct (status_only_rows demo_host one_deleted blank "gone.txt" Hfin Hp) as [H _].
  rewrite H. vm_compute. reflexivity.
Defined.

(** C7, as stated, fails: the status query can report a path twice.  After
    a rename in [sub] and a new file under the old name, [sub/old] is
    reported as the source of the rename and as untracked; it is no
    candidate and not ignored, and it gets two rows. *)
Lemma status_only_rows_counterexample :
  snd (reload demo_host renamed_and_remade blank) = Finished
  /\ count_rows "sub/old" (rows (reload_final demo_host renamed_and_remade blank)) = 2%nat
  /\ ~ one_row_per_status_path demo_host renamed_and_remade blank.
Proof.
  split; [vm_compute; reflexivity|]. split; [vm_compute; reflexivity|].
  intros H. specialize (H "sub/old").
  assert (In "sub/old" (it_chunks (status_iter demo_host renamed_and_remade))) as Hin
    by (vm_compute; tauto).
  specialize (H Hin eq_refl eq_refl eq_refl). vm_compute in H. discriminate.
Qed.

(** ** Order of the rows *)

(** C6, as amended.  The last column of the sheet is [mtime], the
    modification time of the file, and not the staged delta (the column
    [staged], fourth of eight): at the end of a reload that runs to its
    end the rows are in descending order of modification time. *)
Theorem rows_newest_first (h : Host) (inp : Inputs) (s : Sheet) :
  snd (reload h inp s) = Finished ->
  col_name last_column = "mtime"
  /\ (forall cache r, col_getter last_column cache r = (CInt (path_mtime (path r)), cache))
  /\ Sorted newer_first (rows (reload_final h inp s)).
Proof.
  intros Hfin. split; [reflexivity|]. split; [reflexivity|].
  destruct (reload_finished h inp s Hfin) as (s3 & s4 & H). cbn zeta in H.
  destruct H as (_ & _ & _ & _ & _ & _ & ->).
  apply orderBy_last_column_sorted.
Qed.

Lemma rows_newest_first_witness :
  Sorted newer_first (rows (reload_final demo_host two_staged blank)).
Proof.
  assert (Hfin : snd (reload demo_host two_staged blank) = Finished)
    by (vm_compute; reflexivity).
  destruct (rows_newest_first demo_host two_staged blank Hfin) as (_ & _ & H).
  exact H.
Defined.

(** C6, as stated, fails: of two files the newer one, with the smaller
    staged delta, comes first. *)
Lemma rows_newest_first_counterexample :
  snd (reload demo_host two_staged blank) = Finished
  /\ map (fun r => (filename r,
                    staged_cell (cachedStatus (reload_final demo_host two_staged blank)) r))
         (rows (reload_final demo_host two_staged blank))
     = [("a", CStr "+1/-0"); ("b", CStr "+9/-0")]
  /\ ~ sorted_by_staged (reload_final demo_host two_staged blank).
Proof.
  split; [vm_compute; reflexivity|]. split; [vm_compute; reflexivity|].
  unfold sorted_by_staged. intros H.
  remember (reload_final demo_host two_staged blank) as sf eqn:E.
  assert (Hrows : exists ra rb, rows sf = [ra; rb]
            /\ cell_leb (staged_cell (cachedStatus sf) rb)
                        (staged_cell (cachedStatus sf) ra) = false).
  { subst sf. eexists. eexists. split; vm_compute; reflexivity. }
  destruct Hrows as (ra & rb & Hr & Hc). rewrite Hr in H.
  inversion H as [|? ? _ Hhd]; subst. inversion Hhd as [|? ? Hab]; subst.
  congruence.
Qed.

(** ** Statements and what a reader sees *)

Lemma view_inv (s1 s2 : Sheet) :
  view s1 = view s2 ->
  branch s1 = branch s2 /\ remotediff s1 = remotediff s2
  /\ rows s1 = rows s2 /\ cachedStatus s1 = cachedStatus s2.
Proof. unfold view. intros [= -> -> -> ->]. now repeat split. Qed.

Lemma view_report (evs : list Event) (s : Sheet) : view (report evs s) = view s.
Proof. reflexivity. Qed.

Lemma sim_step (f g : Sheet -> Sheet) :
  (forall s1 s2, view s1 = view s2 -> view (f s1) = view (g s2)) ->
  sim (step f) (step g).
Proof. intros H s1 s2 Hv. split; [reflexivity|]. now apply H. Qed.

Lemma sim_report (ev1 ev2 : list Event) (o : Outcome) :
  sim (fun s => (report ev1 s, o)) (fun s => (report ev2 s, o)).
Proof. intros s1 s2 Hv. split; [reflexivity|]. cbn [fst]. now rewrite !view_report. Qed.

Lemma sim_ls_files_body (fn : string) : sim (ls_files_body fn) (ls_files_body fn).
Proof.
  apply sim_step. intros s1 s2 Hv. apply view_inv in Hv.
  destruct Hv as (B & R & Ro & C). unfold view, set_cache. cbn. congruence.
Qed.

Lemma sim_status_body (h : Host) (inp : Inputs) (line : string) :
  sim (status_body h inp line) (status_body h inp line).
Proof.
  apply sim_step. intros s1 s2 Hv.
  change (view (status_step h inp line s1) = view (status_step h inp line s2)).
  rewrite !status_step_spec. destruct (Py.truthy line); [|assumption].
  apply view_inv in Hv. destruct Hv as (B & R & Ro & C).
  cbn zeta. destruct (shows_row h inp line); unfold view; cbn; congruence.
Qed.

Lemma sim_numstat_body (w : Numstat) (line : string) :
  sim (numstat_body w line) (numstat_body w line).
Proof.
  intros s1 s2 Hv. pose proof Hv as Hv'. apply view_inv in Hv'.
  destruct Hv' as (B & R & Ro & C). unfold numstat_body.
  destruct (negb (Py.truthy line)); [now split|].
  destruct (PyStr.split "009" line) as [|a [|d [|fn [|]]]]; try now split.
  split; [reflexivity|]. unfold view. cbn. rewrite C. congruence.
Qed.

Lemma sim_candidate_body (h : Host) (item : string * GitFile) :
  sim (candidate_body h item) (candidate_body h item).
Proof.
  apply sim_step. intros s1 s2 Hv. pose proof Hv as Hv'. apply view_inv in Hv'.
  destruct Hv' as (B & R & Ro & C). cbn beta zeta. rewrite C.
  destruct (negb (ignored h (cachedStatus s2) (filename (snd item)))); [|assumption].
  unfold view. cbn. congruence.
Qed.

Lemma sim_orderBy (col : Column) :
  sim (step (orderBy_desc col)) (step (orderBy_desc col)).
Proof.
  apply sim_step. intros s1 s2 Hv. apply view_inv in Hv.
  destruct Hv as (B & R & Ro & C). unfold orderBy_desc. rewrite Ro, C.
  destruct (keyed (col_getter col) (cachedStatus s2) (rows s2)) as [krs cache'].
  unfold view. cbn. congruence.
Qed.

Lemma sim_map (f : string -> Action) (l : list string) :
  (forall x, sim (f x) (f x)) -> Forall2 sim (map f l) (map f l).
Proof.
  intros H. induction l as [|x l IH]; cbn [map]; constructor; auto.
Qed.

Lemma sim_for_iter (it1 it2 : Iter) (body : string -> Action) :
  (forall x, sim (body x) (body x)) ->
  it_chunks it1 = it_chunks it2 -> it_outcome it1 = it_outcome it2 ->
  Forall2 sim (for_iter it1 body) (for_iter it2 body).
Proof.
  intros Hb Hc Ho. unfold for_iter. rewrite Hc, Ho. apply Forall2_app.
  - now apply sim_map.
  - constructor; [apply sim_report|constructor].
Qed.

(** Related statements from related sheets: the same end and the same
    sheets on the way. *)
Lemma run_sim (acts1 acts2 : list Action) :
  Forall2 sim acts1 acts2 ->
  forall s1 s2, view s1 = view s2 ->
    snd (run acts1 s1) = snd (run acts2 s2)
    /\ map view (fst (run acts1 s1)) = map view (fst (run acts2 s2)).
Proof.
  induction 1 as [|a b acts1 acts2 Hab _ IH]; intros s1 s2 Hv; [now split|].
  cbn [run]. destruct (Hab s1 s2 Hv) as [Ho Hv'].
  destruct (a s1) as [t1 o1], (b s2) as [t2 o2]. cbn [fst snd] in *. subst o2.
  destruct o1 as [|e].
  - destruct (IH t1 t2 Hv') as [IHo IHt].
    destruct (run acts1 t1) as [tr1 q1], (run acts2 t2) as [tr2 q2].
    cbn [fst snd map] in *. split; [assumption|]. now rewrite Hv', IHt.
  - cbn [fst snd map]. split; [reflexivity|]. now rewrite Hv'.
Qed.

Lemma exec_sim (acts1 acts2 : list Action) :
  Forall2 sim acts1 acts2 ->
  forall s1 s2, view s1 = view s2 ->
    snd (exec acts1 s1) = snd (exec acts2 s2)
    /\ view (fst (exec acts1 s1)) = view (fst (exec acts2 s2)).
Proof.
  induction 1 as [|a b acts1 acts2 Hab _ IH]; intros s1 s2 Hv; [now split|].
  cbn [exec]. destruct (Hab s1 s2 Hv) as [Ho Hv'].
  destruct (a s1) as [t1 o1], (b s2) as [t2 o2]. cbn [fst snd] in *. subst o2.
  destruct o1 as [|e]; [now apply IH|now split].
Qed.

(** what follows the four opening statements of [reload] *)
Lemma reload_body_sim (h : Host) (inp1 inp2 : Inputs) :
  in_iterdir inp1 = in_iterdir inp2 ->
  (forall q : Query,
     let it1 := git_iter (error_raises h) (query_cmd h q) "000" (query_proc q inp1) in
     let it2 := git_iter (error_raises h) (query_cmd h q) "000" (query_proc q inp2) in
     it_chunks it1 = it_chunks it2 /\ it_outcome it1 = it_outcome it2) ->
  Forall2 sim (reload_rest h inp1) (reload_rest h inp2).
Proof.
  intros Hdir Hq. unfold reload_rest.
  assert (Hfiles : filenames inp1 = filenames inp2)
    by (unfold filenames, files; now rewrite Hdir).
  destruct (Hq QLsFiles) as [C1 O1], (Hq QStatus) as [C2 O2],
           (Hq QDiffFiles) as [C3 O3], (Hq QDiffIndex) as [C4 O4].
  cbn zeta in *. cbn [query_cmd query_proc] in *.
  apply Forall2_app; [|apply Forall2_app; [|apply Forall2_app;
    [|apply Forall2_app; [|apply Forall2_app]]]].
  - apply sim_for_iter; auto using sim_ls_files_body.
  - unfold status_iter.
    replace (status_body h inp1) with (status_body h inp2).
    + apply sim_for_iter; auto using sim_status_body.
    + unfold status_body. now rewrite Hfiles.
  - apply sim_for_iter; auto using sim_numstat_body.
  - apply sim_for_iter; auto using sim_numstat_body.
  - rewrite Hfiles. generalize (filenames inp2). intros l.
    induction l; cbn [map]; constructor; auto using sim_candidate_body.
  - constructor; [apply sim_orderBy|]. constructor; [|constructor].
    now apply sim_step.
Qed.

(** ** What a reader sees during a reload *)

Lemma run_step (f : Sheet -> Sheet) (rest : list Action) (s : Sheet) :
  run (step f :: rest) s = (f s :: fst (run rest (f s)), snd (run rest (f s))).
Proof. cbn [run step]. now destruct (run rest (f s)). Qed.

Lemma set_remotediff_fields (h : Host) (inp : Inputs) (s : Sheet) :
  let s' := fst (set_remotediff h inp s) in
  branch s' = branch s /\ rows s' = rows s /\ cachedStatus s' = cachedStatus s
  /\ remotediff s'
     = default "no branch"
         (fst (getBranchStatuses (map Py.drop_last (p_blocks (in_refs inp))))
            !! branch s).
Proof.
  unfold set_remotediff, step, git_lines. cbn [fst].
  destruct (getBranchStatuses (map Py.drop_last (p_blocks (in_refs inp)))) as [ret evs].
  now repeat split.
Qed.

Lemma reset_view (h : Host) (inp : Inputs) (s : Sheet) :
  view (reset h inp s)
  = (PyStr.strip (contents (in_head inp)),
     default "no branch"
       (fst (getBranchStatuses (map Py.drop_last (p_blocks (in_refs inp))))
          !! PyStr.strip (contents (in_head inp))),
     [], ∅).
Proof.
  unfold reset, view. cbn [set_cache set_rows branch remotediff rows cachedStatus].
  destruct (set_remotediff_fields h inp (fst (set_branch h inp s))) as (B & _ & _ & R).
  cbn zeta in *. rewrite B, R. reflexivity.
Qed.

Lemma reload_trace (h : Host) (inp : Inputs) (s : Sheet) :
  let t1 := fst (set_branch h inp s) in
  let t2 := fst (set_remotediff h inp t1) in
  let t3 := set_rows (fun _ => []) t2 in
  fst (reload h inp s)
  = t1 :: t2 :: t3 :: reset h inp s
       :: fst (run (reload_rest h inp) (reset h inp s))
  /\ snd (reload h inp s) = snd (run (reload_rest h inp) (reset h inp s)).
Proof.
  cbn zeta. unfold reload.
  change (reload_actions h inp)
    with (set_branch h inp :: set_remotediff h inp
          :: step (set_rows (fun _ => [])) :: step (set_cache (fun _ => ∅))
          :: reload_rest h inp).
  unfold set_branch, set_remotediff. rewrite !run_step. split; reflexivity.
Qed.

Lemma reload_final_exec (h : Host) (inp : Inputs) (s : Sheet) :
  reload_final h inp s = fst (exec (reload_rest h inp) (reset h inp s))
  /\ snd (reload h inp s) = snd (exec (reload_rest h inp) (reset h inp s)).
Proof.
  unfold reload_final, reload.
  destruct (run_exec (reload_actions h inp) s) as [-> ->].
  split; reflexivity.
Qed.

(** C4, as amended.  [reload] does not build the new rows aside and swap
    them in at the end: after the two branch queries it empties the row
    list, then clears the status map, both in place, and fills them
    again statement by statement, and a reader sees each of these sheets
    (the third one has no rows and still the map of the cycle before).
    What holds is that from the clearing of the map on, every sheet a
    reader sees, and so the final one, is made of the results of the
    current cycle alone: it is the same whatever the sheet was before
    the reload. *)
Theorem reload_in_place (h : Host) (inp : Inputs) (s1 s2 : Sheet) :
  snd (reload h inp s1) = snd (reload h inp s2)
  /\ map view (drop 3 (fst (reload h inp s1))) = map view (drop 3 (fst (reload h inp s2)))
  /\ view (reload_final h inp s1) = view (reload_final h inp s2)
  /\ exists t, fst (reload h inp s1) !! 2%nat = Some t
               /\ rows t = [] /\ cachedStatus t = cachedStatus s1.
Proof.
  assert (Hsim : Forall2 sim (reload_rest h inp) (reload_rest h inp)).
  { apply reload_body_sim; [reflexivity|]. intros q. now split. }
  assert (Hv : view (reset h inp s1) = view (reset h inp s2))
    by now rewrite !reset_view.
  destruct (reload_trace h inp s1) as [T1 O1], (reload_trace h inp s2) as [T2 O2].
  cbn zeta in *.
  destruct (run_sim _ _ Hsim _ _ Hv) as [Ho Ht].
  destruct (exec_sim _ _ Hsim _ _ Hv) as [_ He].
  split; [congruence|]. split.
  { rewrite T1, T2. cbn [drop map]. now rewrite Hv, Ht. }
  split.
  { destruct (reload_final_exec h inp s1) as [-> _].
    destruct (reload_final_exec h inp s2) as [-> _]. exact He. }
  rewrite T1. eexists. split; [reflexivity|]. split; [reflexivity|].
  cbn [set_rows cachedStatus].
  now destruct (set_remotediff_fields h inp (fst (set_branch h inp s1))) as (_ & _ & -> & _).
Qed.

(** C4, as stated, fails.  After a cycle on two files, a reload of a
    directory with one file and one deleted file shows a reader the
    sheet without rows, which is neither the sheet of before nor that of
    after. *)
Lemma reload_in_place_counterexample :
  let before := reload_final demo_host two_staged blank in
  map filename (rows before) = ["a"; "b"]
  /\ map filename (rows (reload_final demo_host one_deleted before))
     = ["gone.txt"; "kept.txt"]
  /\ (exists t, In t (fst (reload demo_host one_deleted before)) /\ rows t = [])
  /\ ~ swapped_at_once demo_host one_deleted before.
Proof.
  intros before. split; [vm_compute; reflexivity|]. split; [vm_compute; reflexivity|].
  destruct (reload_in_place demo_host one_deleted before before)
    as (_ & _ & _ & t & Ht & Hrows & Hcache).
  assert (Hin : In t (fst (reload demo_host one_deleted before))).
  { apply list_elem_of_In. eapply list_elem_of_lookup_2. exact Ht. }
  split; [exists t; split; assumption|].
  assert (Hb : rows before <> []) by (vm_compute; discriminate).
  assert (Ha : rows (reload_final demo_host one_deleted before) <> [])
    by (vm_compute; discriminate).
  intros H. destruct (H t Hin) as [E|E];
    apply pair_equal_spec in E; destruct E as [E _].
  - apply Hb. rewrite <- E. exact Hrows.
  - apply Ha. rewrite <- E. exact Hrows.
Qed.

(** ** Failing queries *)








(** *** The messages of a reload *)






(** *** Records and fields through a reload *)













Lemma exec_ls_files (chunks : list string) (s : Sheet) :
  exec (map ls_files_body chunks) s
  = (fold_left (fun s fn => fst (ls_files_body fn s)) chunks s, Finished).
Proof.
  unfold ls_files_body.
  now rewrite (exec_steps (fun fn => set_cache
                 (fun cache => <[fn := mkFileStatus "  " None None]> cache))).
Qed.

(** The other reading of [error]: when it raises, a failing tracked-file
    query ends the reload there, before the status query is read. *)
Lemma reload_stops_when_error_raises (h : Host) (inp : Inputs) (s : Sheet) :
  error_raises h = true ->
  p_exit (in_ls_files inp) <> 0%Z ->
  snd (reload h inp s) = Raised "ExpectedException"
  /\ rows (reload_final h inp s) = [].
Proof.
  intros Herr Hne.
  destruct (reload_final_exec h inp s) as [-> ->].
  assert (Ho : it_outcome (ls_files_iter h inp) = Raised "ExpectedException").
  { unfold ls_files_iter, git_iter. rewrite Herr.
    destruct (feed "000" [] (p_blocks (in_ls_files inp))) as [ys pend].
    now destruct (Z.eqb_spec (p_exit (in_ls_files inp)) 0). }
  unfold reload_rest. rewrite exec_app, exec_for_iter, exec_ls_files, Ho.
  cbn [fst snd]. split; [reflexivity|]. cbn [report rows].
  exact (ls_files_loop_rows (it_chunks (ls_files_iter h inp)) (reset h inp s)).
Qed.

(** ** The branch pattern *)

Lemma star_greedy {A} (p : ascii -> bool) (w rest : string) (k : string -> option A) (r : A) :
  all_chars p w = true -> stops p rest = true -> k rest = Some r ->
  Re.star p (w +:+ rest) k = Some r.
Proof.
  intros Hw Hs Hk. induction w as [|x w IH].
  - rewrite sapp_nil_l. destruct rest as [|a rest]; [exact Hk|].
    cbn [Re.star]. cbn in Hs. destruct (p a); [discriminate|exact Hk].
  - rewrite sapp_cons. cbn [Re.star]. cbn in Hw. apply andb_prop in Hw.
    destruct Hw as [Hx Hw]. rewrite Hx, (IH Hw). reflexivity.
Qed.

Lemma take_prefix (w r : string) :
  Py.take (String.length (w +:+ r) - String.length r) (w +:+ r) = w.
Proof.
  rewrite slength_app. replace (String.length w + String.length r - String.length r)%nat
    with (String.length w) by lia.
  induction w as [|x w IH]; [now destruct r|].
  rewrite sapp_cons. cbn. now rewrite IH.
Qed.

Lemma token_inv (s : string) :
  token s -> exists a s', s = String a s' /\ Re.nonspace a = true /\ all_chars Re.nonspace s' = true.
Proof.
  intros [Hne Hall]. destruct s as [|a s']; [congruence|].
  cbn in Hall. apply andb_prop in Hall. destruct Hall. now exists a, s'.
Qed.


Lemma take_length (s : string) : Py.take (String.length s) s = s.
Proof. induction s as [|a s IH]; [reflexivity|]. cbn. now rewrite IH. Qed.

Section RunLemmas.

Variables (c : Re.caps) (k : string -> Re.caps -> option Re.caps) (r : Re.caps).

Lemma run_seq (r1 r2 : Re.re) (s : string) :
  Re.run r1 s c (fun s1 c1 => Re.run r2 s1 c1 k) = Some r ->
  Re.run (Re.Seq r1 r2) s c k = Some r.
Proof. intros H. exact H. Qed.

Lemma run_group (n : nat) (r1 : Re.re) (s : string) :
  Re.run r1 s c (fun s1 c1 =>
    k s1 (<[n := Some (Py.take (String.length s - String.length s1) s)]> c1)) = Some r ->
  Re.run (Re.Group n r1) s c k = Some r.
Proof. intros H. exact H. Qed.

Lemma run_chr (p : ascii -> bool) (a : ascii) (R : string) :
  p a = true -> k R c = Some r -> Re.run (Re.Chr p) (String a R) c k = Some r.
Proof. intros Ha Hk. cbn [Re.run]. now rewrite Ha. Qed.

Lemma run_lit (a : ascii) (R : string) :
  k R c = Some r -> Re.run (Re.lit a) (String a R) c k = Some r.
Proof. apply run_chr. apply Ascii.eqb_refl. Qed.

Lemma run_star (p : ascii -> bool) (w R : string) :
  all_chars p w = true -> stops p R = true -> k R c = Some r ->
  Re.run (Re.Star p) (w +:+ R) c k = Some r.
Proof. intros Hw Hs Hk. cbn [Re.run]. now apply star_greedy. Qed.

Lemma run_star1 (p : ascii -> bool) (a : ascii) (R : string) :
  p a = true -> stops p R = true -> k R c = Some r ->
  Re.run (Re.Star p) (String a R) c k = Some r.
Proof.
  intros Ha Hs Hk. change (String a R) with (String a "" +:+ R).
  apply run_star; [|assumption..]. cbn. now rewrite Ha.
Qed.

Lemma run_star0 (p : ascii -> bool) (R : string) :
  stops p R = true -> k R c = Some r -> Re.run (Re.Star p) R c k = Some r.
Proof. intros Hs Hk. rewrite <- (sapp_nil_l R). now apply run_star. Qed.

Lemma run_group_plus (n : nat) (p : ascii -> bool) (a : ascii) (w R : string) :
  p a = true -> all_chars p w = true -> stops p R = true ->
  k R (<[n := Some (String a w)]> c) = Some r ->
  Re.run (Re.Group n (Re.plus p)) (String a (w +:+ R)) c k = Some r.
Proof.
  intros Ha Hw Hs Hk. cbn [Re.run Re.plus]. rewrite Ha.
  apply star_greedy; [assumption..|].
  change (String a (w +:+ R)) with (String a w +:+ R).
  now rewrite take_prefix.
Qed.

Lemma run_opt_some (re : Re.re) (s : string) :
  Re.run re s c k = Some r -> Re.run (Re.Opt re) s c k = Some r.
Proof. intros H. cbn [Re.run]. now rewrite H. Qed.

Lemma run_opt_none (re : Re.re) (s : string) :
  Re.run re s c k = None -> k s c = Some r -> Re.run (Re.Opt re) s c k = Some r.
Proof. intros H Hk. cbn [Re.run]. now rewrite H. Qed.

End RunLemmas.

Lemma run_lits (t R : string) :
  forall c k r, k R c = Some r -> Re.run (Re.lits t) (t +:+ R) c k = Some r.
Proof.
  induction t as [|a t IH]; intros c k r Hk; [exact Hk|].
  rewrite sapp_cons. cbn [Re.lits]. apply run_seq, run_lit. cbv beta. now apply IH.
Qed.

Lemma number_inv (s : string) :
  number s -> exists a s', s = String a s' /\ Re.digit a = true /\ all_chars Re.digit s' = true.
Proof.
  intros [Hne Hall]. destruct s as [|a s']; [congruence|].
  cbn in Hall. apply andb_prop in Hall. destruct Hall. now exists a, s'.
Qed.

Lemma nonspace_stops (a : ascii) (s : string) :
  Re.nonspace a = true -> stops Re.space (String a s) = true.
Proof. intros H. cbn. exact H. Qed.



Lemma run_star_all (p : ascii -> bool) (w : string) (c : Re.caps)
  (k : string -> Re.caps -> option Re.caps) (r : Re.caps) :
  all_chars p w = true -> k "" c = Some r -> Re.run (Re.Star p) w c k = Some r.
Proof. intros Hw Hk. rewrite <- (sapp_nil_r w). now apply run_star. Qed.

Lemma stops_blank (ws : string) : blank_run ws -> stops Re.nonspace ws = true.
Proof.
  unfold blank_run. destruct ws as [|a ws]; [reflexivity|]. cbn.
  intros H. apply andb_prop in H. destruct H as [H _].
  unfold Re.nonspace. now rewrite H.
Qed.

Lemma search_of_match (n : nat) (r : Re.re) (s : string) (m : Re.caps) :
  Re.match_here n r s = Some m -> Re.search n r s = Some m.
Proof. intros H. destruct s; cbn [Re.search]; now rewrite H. Qed.

Ltac seq := apply run_seq.
Ltac tok H1 H2 := apply run_group_plus; [exact H1|exact H2| |cbv beta].
Ltac sp := apply run_star1; [reflexivity| |cbv beta].

(** What the pattern captures on each form of line: the groups that
    [getBranchStatuses] reads. *)
Lemma match_both (l u N M : string) :
  token l -> token u -> number N -> number M ->
  exists m, Re.match_here 7 branch_re (both_line l u N M) = Some m
    /\ group m 0 = Some l /\ group m 4 = Some N /\ group m 6 = Some M.
Proof.
  intros Hl Hu HN HM.
  destruct (token_inv l Hl) as (a & l' & -> & Ha & Hl').
  destruct (token_inv u Hu) as (b & u' & -> & Hb & Hu').
  destruct (number_inv N HN) as (n & N' & -> & Hn & HN').
  destruct (number_inv M HM) as (m0 & M' & -> & Hm & HM').
  unfold both_line.
  change (String a l' +:+ " " +:+ String b u' +:+ " [ahead " +:+ String n N'
          +:+ ", behind " +:+ String m0 M' +:+ "]")
    with (String a (l' +:+ String " " (String b (u' +:+ String " " (String "["
           ("ahead" +:+ String " " (String n (N' +:+ String "," (String " "
             ("behind" +:+ String " " (String m0 (M' +:+ "]")))))))))))).
  eexists. split.
  - unfold Re.match_here, branch_re.
    seq. tok Ha Hl'; [reflexivity|].
    seq. sp; [now apply nonspace_stops|].
    seq. apply run_opt_some. tok Hb Hu'; [reflexivity|].
    seq. sp; [reflexivity|].
    apply run_opt_some, run_group. seq. apply run_lit. cbv beta.
    seq. apply run_group. seq. apply run_lits. cbv beta.
    seq. apply run_chr; [reflexivity|]. cbv beta.
    tok Hn HN'; [reflexivity|].
    seq. apply run_opt_some, run_lit. cbv beta.
    seq. sp; [reflexivity|].
    seq. apply run_opt_some, run_group. seq. apply run_lits. cbv beta.
    seq. apply run_chr; [reflexivity|]. cbv beta.
    tok Hm HM'; [reflexivity|].
    apply run_lit. cbv beta. reflexivity.
  - repeat split; reflexivity.
Qed.

Lemma match_ahead (l u N : string) :
  token l -> token u -> number N ->
  exists m, Re.match_here 7 branch_re (ahead_line l u N) = Some m
    /\ group m 0 = Some l /\ group m 4 = Some N /\ group m 6 = None.
Proof.
  intros Hl Hu HN.
  destruct (token_inv l Hl) as (a & l' & -> & Ha & Hl').
  destruct (token_inv u Hu) as (b & u' & -> & Hb & Hu').
  destruct (number_inv N HN) as (n & N' & -> & Hn & HN').
  unfold ahead_line.
  change (String a l' +:+ " " +:+ String b u' +:+ " [ahead " +:+ String n N' +:+ "]")
    with (String a (l' +:+ String " " (String b (u' +:+ String " " (String "["
           ("ahead" +:+ String " " (String n (N' +:+ "]")))))))).
  eexists. split.
  - unfold Re.match_here, branch_re.
    seq. tok Ha Hl'; [reflexivity|].
    seq. sp; [now apply nonspace_stops|].
    seq. apply run_opt_some. tok Hb Hu'; [reflexivity|].
    seq. sp; [reflexivity|].
    apply run_opt_some, run_group. seq. apply run_lit. cbv beta.
    seq. apply run_group. seq. apply run_lits. cbv beta.
    seq. apply run_chr; [reflexivity|]. cbv beta.
    tok Hn HN'; [reflexivity|].
    seq. apply run_opt_none; [reflexivity|].
    seq. apply run_star0; [reflexivity|]. cbv beta.
    seq. apply run_opt_none; [reflexivity|].
    apply run_lit. cbv beta. reflexivity.
  - repeat split; reflexivity.
Qed.

Lemma match_behind (l u M : string) :
  token l -> token u ->
  exists m, Re.match_here 7 branch_re (behind_line l u M) = Some m
    /\ group m 0 = Some l /\ group m 4 = None /\ group m 6 = None.
Proof.
  intros Hl Hu.
  destruct (token_inv l Hl) as (a & l' & -> & Ha & Hl').
  destruct (token_inv u Hu) as (b & u' & -> & Hb & Hu').
  unfold behind_line.
  change (String a l' +:+ " " +:+ String b u' +:+ " [behind " +:+ M +:+ "]")
    with (String a (l' +:+ String " " (String b (u' +:+ String " " (String "["
           (String "b" ("ehind " +:+ M +:+ "]"))))))).
  eexists. split.
  - unfold Re.match_here, branch_re.
    seq. tok Ha Hl'; [reflexivity|].
    seq. sp; [now apply nonspace_stops|].
    seq. apply run_opt_some. tok Hb Hu'; [reflexivity|].
    seq. sp; [reflexivity|].
    apply run_opt_none; reflexivity.
  - repeat split; reflexivity.
Qed.

Lemma match_untracked (l ws : string) :
  token l -> blank_run ws ->
  exists m, Re.match_here 7 branch_re (l +:+ ws) = Some m
    /\ group m 0 = Some l /\ group m 4 = None /\ group m 6 = None.
Proof.
  intros Hl Hws.
  destruct (token_inv l Hl) as (a & l' & -> & Ha & Hl').
  rewrite sapp_cons. eexists. split.
  - unfold Re.match_here, branch_re.
    seq. tok Ha Hl'; [now apply stops_blank|].
    seq. apply run_star_all; [exact Hws|]. cbv beta.
    seq. apply run_opt_none; [reflexivity|].
    seq. apply run_star0; [reflexivity|]. cbv beta.
    apply run_opt_none; reflexivity.
  - repeat split; reflexivity.
Qed.

Lemma match_uptodate (l u ws : string) :
  token l -> token u -> blank_run ws ->
  exists m, Re.match_here 7 branch_re (l +:+ " " +:+ u +:+ ws) = Some m
    /\ group m 0 = Some l /\ group m 4 = None /\ group m 6 = None.
Proof.
  intros Hl Hu Hws.
  destruct (token_inv l Hl) as (a & l' & -> & Ha & Hl').
  destruct (token_inv u Hu) as (b & u' & -> & Hb & Hu').
  change (String a l' +:+ " " +:+ String b u' +:+ ws)
    with (String a (l' +:+ String " " (String b (u' +:+ ws)))).
  eexists. split.
  - unfold Re.match_here, branch_re.
    seq. tok Ha Hl'; [reflexivity|].
    seq. sp; [now apply nonspace_stops|].
    seq. apply run_opt_some. tok Hb Hu'; [now apply stops_blank|].
    seq. apply run_star_all; [exact Hws|]. cbv beta.
    apply run_opt_none; reflexivity.
  - repeat split; reflexivity.
Qed.

(** One turn of the loop on a line that the pattern matches. *)
Lemma branch_step_matched (ret : gmap string string) (evs : list Event)
  (line l : string) (m : Re.caps) :
  Re.match_here 7 branch_re line = Some m ->
  group m 0 = Some l ->
  branch_step (ret, evs) line
  = (<[l := branch_delta (group m 4) (group m 6)]> ret, evs).
Proof.
  intros Hm Hl. unfold branch_step.
  now rewrite (search_of_match _ _ _ _ Hm), Hl.
Qed.

(** C1 fails on the code for a branch that is only behind.  The pattern
    asks for [ahead N] inside the brackets before it looks for
    [behind M], so on the line [l u [behind M]] it matches the two names
    and no count: the branch gets the empty delta, not [-M]. *)
Theorem branch_behind_only (ret : gmap string string) (evs : list Event)
  (l u M : string) :
  token l -> token u ->
  branch_step (ret, evs) (behind_line l u M) = (<[l := ""]> ret, evs).
Proof.
  intros Hl Hu. destruct (match_behind l u M Hl Hu) as (m & Hm & H0 & H4 & H6).
  rewrite (branch_step_matched ret evs _ l m Hm H0), H4, H6. reflexivity.
Qed.

Lemma branch_behind_only_witness :
  fst (getBranchStatuses ["main origin/main [behind 1]"]) = {["main" := ""]}.
Proof.
  unfold getBranchStatuses. cbn [fold_left].
  change "main origin/main [behind 1]" with (behind_line "main" "origin/main" "1").
  rewrite (branch_behind_only ∅ [] "main" "origin/main" "1").
  - reflexivity.
  - split; [discriminate|reflexivity].
  - split; [discriminate|reflexivity].
Defined.

(** * Further properties of the code *)

(** ** Stream Chunker: what the chunks are *)

Lemma git_iter_chunks_shape (raises : bool) (cmd : string) (sep : ascii) (p : Proc) :
  it_chunks (git_iter raises cmd sep p)
  = fst (feed sep [] (p_blocks p))
    ++ (if (p_exit p =? 0)%Z || negb raises
        then final_chunk (snd (feed sep [] (p_blocks p))) else []).
Proof.
  unfold git_iter. destruct (feed sep [] (p_blocks p)) as [ys pend]. cbn [fst snd].
  destruct (p_exit p =? 0)%Z; [reflexivity|]. destruct raises; cbn [orb negb it_chunks].
  - now rewrite List.app_nil_r.
  - reflexivity.
Qed.

Section Free.

Variable c : ascii.

Lemma scan_free (fuel : nat) :
  forall chunks data ys pend,
    (String.length data < fuel)%nat ->
    Py.find c (Py.join "" chunks) = None ->
    scan fuel c chunks data = (ys, pend) ->
    Forall (fun y => Py.find c y = None) ys.
Proof.
  induction fuel as [|fuel IH]; intros chunks data ys pend Hlt Hc H; [lia|].
  cbn [scan] in H. destruct (Py.find c data) as [i|] eqn:E.
  - destruct (scan fuel c [] (Py.drop (S i) data)) as [ys' pend'] eqn:E'.
    injection H as <- <-.
    pose proof (find_drop_length c data i E) as Hlen.
    constructor.
    + rewrite join_empty_snoc. apply find_app_None; [assumption|].
      now apply find_take.
    + apply (IH [] (Py.drop (S i) data) ys' pend'); [lia|reflexivity|assumption].
  - injection H as <- <-. constructor.
Qed.

Lemma feed_free (blocks : list string) :
  forall chunks ys pend,
    Py.find c (Py.join "" chunks) = None ->
    feed c chunks blocks = (ys, pend) ->
    Forall (fun y => Py.find c y = None) ys.
Proof.
  induction blocks as [|data bs IH]; intros chunks ys pend Hc H; cbn [feed] in H.
  - injection H as <- <-. constructor.
  - destruct (scan (S (String.length data)) c chunks data) as [ys1 chunks1] eqn:E1.
    destruct (feed c chunks1 bs) as [zs chunks2] eqn:E2.
    injection H as <- <-. apply Forall_app. split.
    + apply (scan_free (S (String.length data)) chunks data ys1 chunks1);
        [lia|assumption|assumption].
    + apply (IH chunks1 zs chunks2); [|assumption].
      apply scan_spec in E1; [|lia]. now apply E1.
Qed.

(** One way to cut a text at its first delimiter. *)
Lemma app_sep_inj (y : string) :
  forall y' X X',
    Py.find c y = None -> Py.find c y' = None ->
    y +:+ String c X = y' +:+ String c X' -> y = y' /\ X = X'.
Proof.
  induction y as [|a y IH]; intros y' X X' Hy Hy' E.
  - rewrite sapp_nil_l in E. destruct y' as [|b y'].
    + rewrite sapp_nil_l in E. now injection E as <-.
    + rewrite sapp_cons in E. injection E as <- _. cbn in Hy'.
      rewrite Ascii.eqb_refl in Hy'. discriminate.
  - cbn in Hy. destruct (Ascii.eqb a c) eqn:Ea; [discriminate|].
    destruct y' as [|b y'].
    + rewrite sapp_nil_l, sapp_cons in E. injection E as -> _.
      rewrite Ascii.eqb_refl in Ea. discriminate.
    + rewrite !sapp_cons in E. injection E as <- E. cbn in Hy'. rewrite Ea in Hy'.
      destruct (IH y' X X') as [-> ->]; [| |assumption|now split].
      * now destruct (Py.find c y).
      * now destruct (Py.find c y').
Qed.

Lemma terminated_find (y : string) (ys : list string) (r : string) :
  Py.find c (terminated c (y :: ys) +:+ r) <> None.
Proof.
  rewrite terminated_cons, sapp_assoc, find_app.
  destruct (Py.find c y); [discriminate|].
  rewrite sapp_cons. cbn [Py.find]. now rewrite Ascii.eqb_refl.
Qed.

(** A text is cut into delimiter-ended values and a rest in one way. *)
Lemma terminated_unique (ys : list string) :
  forall ys' r r',
    Forall (fun y => Py.find c y = None) ys ->
    Forall (fun y => Py.find c y = None) ys' ->
    Py.find c r = None -> Py.find c r' = None ->
    terminated c ys +:+ r = terminated c ys' +:+ r' ->
    ys = ys' /\ r = r'.
Proof.
  induction ys as [|y ys IH]; intros ys' r r' Hys Hys' Hr Hr' E.
  - destruct ys' as [|y' ys']; [now split|].
    exfalso. apply (terminated_find y' ys' r'). now rewrite <- E.
  - destruct ys' as [|y' ys'].
    + exfalso. apply (terminated_find y ys r). now rewrite E.
    + inversion Hys as [|? ? Hy Hys0]; inversion Hys' as [|? ? Hy' Hys0']; subst.
      rewrite !terminated_cons, !sapp_assoc, !sapp_cons in E.
      destruct (app_sep_inj y y' _ _ Hy Hy' E) as [-> E'].
      destruct (IH ys' r r' Hys0 Hys0' Hr Hr' E') as [-> ->]. now split.
Qed.

End Free.

(** X1.  No value yielded by [git_iter] holds the delimiter, whatever the
    blocks, the exit code and the behaviour of [error]. *)
Theorem git_iter_no_delimiter (raises : bool) (cmd : string) (sep : ascii) (p : Proc) :
  Forall (fun y => Py.find sep y = None) (it_chunks (git_iter raises cmd sep p)).
Proof.
  rewrite git_iter_chunks_shape.
  destruct (feed sep [] (p_blocks p)) as [ys pend] eqn:E. cbn [fst snd].
  apply Forall_app. split.
  - now apply (feed_free sep (p_blocks p) [] ys pend).
  - destruct ((p_exit p =? 0)%Z || negb raises); [|constructor].
    unfold final_chunk. destruct (Py.truthy (Py.join "" pend)); [|constructor].
    constructor; [|constructor]. apply feed_spec in E. now apply E.
Qed.

(** X2.  The values depend on the text of the stream only, not on the
    blocks in which it is read: two commands with the same output and
    the same exit code give the same values. *)
Theorem git_iter_block_independent (raises : bool) (cmd1 cmd2 : string) (sep : ascii)
  (p1 p2 : Proc) :
  contents p1 = contents p2 ->
  p_exit p1 = p_exit p2 ->
  it_chunks (git_iter raises cmd1 sep p1) = it_chunks (git_iter raises cmd2 sep p2).
Proof.
  intros Hc He. rewrite !git_iter_chunks_shape, He.
  destruct (feed sep [] (p_blocks p1)) as [ys1 pend1] eqn:E1.
  destruct (feed sep [] (p_blocks p2)) as [ys2 pend2] eqn:E2.
  cbn [fst snd].
  pose proof (feed_free sep (p_blocks p1) [] ys1 pend1 eq_refl E1) as F1.
  pose proof (feed_free sep (p_blocks p2) [] ys2 pend2 eq_refl E2) as F2.
  apply feed_spec in E1, E2. destruct E1 as [A1 B1], E2 as [A2 B2].
  change (Py.join "" []) with "" in A1, A2. rewrite sapp_nil_l in A1, A2.
  fold (contents p1) in A1. fold (contents p2) in A2.
  destruct (terminated_unique sep ys1 ys2 (Py.join "" pend1) (Py.join "" pend2))
    as [-> Hr]; auto; [congruence|].
  unfold final_chunk. now rewrite Hr.
Qed.

Lemma git_iter_block_independent_witness :
  it_chunks (git_iter false "git" nul (ok ["a"; String nul "b"; String nul ""]))
  = it_chunks (git_iter false "git" nul (ok [String "a" (String nul (String "b" (String nul "")))])).
Proof.
  apply git_iter_block_independent; reflexivity.
Defined.


(** ** Command Runner: the lines of [git_lines] *)

Lemma drop_last_snoc (s : string) (a : ascii) : Py.drop_last (s +:+ Py.chr a) = s.
Proof.
  induction s as [|x s IH]; [reflexivity|].
  rewrite sapp_cons. cbn [Py.drop_last]. rewrite IH.
  destruct (s +:+ Py.chr a) eqn:E; [|reflexivity].
  destruct s; discriminate.
Qed.

(** X4.  [git_lines] gives every line without its last character, which
    for the lines of a command is the end of line; it never raises, and
    a failing command adds one status message with its exit code. *)
Theorem git_lines_lines (cmd : string) (ls : list string) (eol : ascii)
  (code : Z) (errlines : list string) :
  let p := mkProc (map (fun l => l +:+ Py.chr eol) ls) code errlines in
  fst (git_lines cmd p) = ls
  /\ (In (EvCmdStatus cmd code) (snd (git_lines cmd p)) <-> code <> 0%Z).
Proof.
  cbn zeta. unfold git_lines. cbn [fst snd p_blocks p_exit p_errlines]. split.
  - rewrite map_map. induction ls as [|l ls IH]; [reflexivity|].
    cbn [map]. now rewrite drop_last_snoc, IH.
  - rewrite in_app_iff. destruct (Z.eqb_spec code 0) as [->|Hne]; split.
    + intros [[]|H]; exfalso.
      destruct (length errlines <? 3)%nat.
      * apply in_map_iff in H. now destruct H as (? & ? & _).
      * destruct H as [H|[]]. discriminate.
    + congruence.
    + intros _. exact Hne.
    + intros _. left. now left.
Qed.

(** ** Branch Status Parser: the deltas it gives *)

(** X5.  A line [l u [ahead N, behind M]] sets the delta of branch [l] to
    [+N/-M], whatever the dict held before. *)
Theorem branch_ahead_behind (ret : gmap string string) (evs : list Event)
  (l u N M : string) :
  token l -> token u -> number N -> number M ->
  branch_step (ret, evs) (both_line l u N M)
  = (<[l := "+" +:+ N +:+ "/-" +:+ M]> ret, evs).
Proof.
  intros Hl Hu HN HM.
  destruct (match_both l u N M Hl Hu HN HM) as (m & Hm & H0 & H4 & H6).
  rewrite (branch_step_matched ret evs _ l m Hm H0), H4, H6.
  destruct HN as [HN _], HM as [HM _].
  destruct N as [|n N]; [congruence|]. destruct M as [|m0 M]; [congruence|].
  unfold branch_delta. cbn [group_true group_text Py.truthy].
  change (Py.truthy ("+" +:+ String n N)) with true. cbv iota.
  rewrite !sapp_assoc. reflexivity.
Qed.

Lemma branch_ahead_behind_witness :
  fst (getBranchStatuses ["main origin/main [ahead 2, behind 1]"]) = {["main" := "+2/-1"]}.
Proof.
  unfold getBranchStatuses. cbn [fold_left].
  change "main origin/main [ahead 2, behind 1]"
    with (both_line "main" "origin/main" "2" "1").
  rewrite (branch_ahead_behind ∅ [] "main" "origin/main" "2" "1");
    try (split; [discriminate|reflexivity]).
  reflexivity.
Defined.

(** X6.  A line [l u [ahead N]] sets the delta of [l] to [+N]. *)
Theorem branch_ahead_only (ret : gmap string string) (evs : list Event)
  (l u N : string) :
  token l -> token u -> number N ->
  branch_step (ret, evs) (ahead_line l u N) = (<[l := "+" +:+ N]> ret, evs).
Proof.
  intros Hl Hu HN.
  destruct (match_ahead l u N Hl Hu HN) as (m & Hm & H0 & H4 & H6).
  rewrite (branch_step_matched ret evs _ l m Hm H0), H4, H6.
  destruct HN as [HN _]. destruct N as [|n N]; [congruence|]. reflexivity.
Qed.

Lemma branch_ahead_only_witness :
  fst (getBranchStatuses ["dev origin/dev [ahead 12]"]) = {["dev" := "+12"]}.
Proof.
  unfold getBranchStatuses. cbn [fold_left].
  change "dev origin/dev [ahead 12]" with (ahead_line "dev" "origin/dev" "12").
  rewrite (branch_ahead_only ∅ [] "dev" "origin/dev" "12");
    try (split; [discriminate|reflexivity]).
  reflexivity.
Defined.

(** X7.  A branch without upstream ([l] and white space) and a branch
    level with its upstream ([l u] and white space) get the empty
    delta. *)
Theorem branch_no_delta (ret : gmap string string) (evs : list Event)
  (l u ws : string) :
  token l -> token u -> blank_run ws ->
  branch_step (ret, evs) (l +:+ ws) = (<[l := ""]> ret, evs)
  /\ branch_step (ret, evs) (l +:+ " " +:+ u +:+ ws) = (<[l := ""]> ret, evs).
Proof.
  intros Hl Hu Hws. split.
  - destruct (match_untracked l ws Hl Hws) as (m & Hm & H0 & H4 & H6).
    now rewrite (branch_step_matched ret evs _ l m Hm H0), H4, H6.
  - destruct (match_uptodate l u ws Hl Hu Hws) as (m & Hm & H0 & H4 & H6).
    now rewrite (branch_step_matched ret evs _ l m Hm H0), H4, H6.
Qed.

Lemma branch_no_delta_witness :
  fst (getBranchStatuses ["main"]) = {["main" := ""]}.
Proof.
  unfold getBranchStatuses. cbn [fold_left].
  change "main" with ("main" +:+ "").
  destruct (branch_no_delta ∅ [] "main" "origin/main" "") as [H _];
    try (split; [discriminate|reflexivity]); [reflexivity|].
  rewrite H. reflexivity.
Defined.

Lemma match_blank (s : string) :
  stops Re.nonspace s = true -> Re.match_here 7 branch_re s = None.
Proof.
  intros Hs. unfold Re.match_here, branch_re.
  cbn [Re.run Re.plus]. destruct s as [|a s]; [reflexivity|].
  cbn in Hs. now destruct (Re.nonspace a).
Qed.

Lemma search_blank (ws : string) : blank_run ws -> Re.search 7 branch_re ws = None.
Proof.
  unfold blank_run. induction ws as [|a ws IH]; intros H.
  - reflexivity.
  - cbn [Re.search]. rewrite match_blank by now apply stops_blank.
    cbn in H. apply andb_prop in H. now apply IH.
Qed.

(** X8.  A line of white space only (or an empty line) matches nothing:
    it is reported as unmatched and the dict stays as it is. *)
Theorem branch_unmatched (ret : gmap string string) (evs : list Event) (ws : string) :
  blank_run ws ->
  branch_step (ret, evs) ws
  = (ret, evs ++ [EvStatus ("unmatched branch status: " +:+ ws)]).
Proof. intros H. unfold branch_step. now rewrite search_blank. Qed.

Lemma branch_unmatched_witness :
  getBranchStatuses ["  "] = (∅, [EvStatus "unmatched branch status:   "]).
Proof.
  unfold getBranchStatuses. cbn [fold_left].
  rewrite (branch_unmatched ∅ [] "  "); reflexivity.
Defined.

(** ** In-progress operations *)

(** X9.  [abortWhatever] goes by the state that [inProgress] names: a
    rebase marker (of a rebase or of an apply) makes it run
    [rebase --abort] whatever else is there, then a cherry-pick, a merge
    and a bisect get their own command, and it says that there is
    nothing to abort exactly when none of the six markers exists. *)
Theorem abortWhatever_dispatch (exists_ : string -> bool) :
  abortWhatever exists_
  = if exists_ ".git/rebase-merge" || exists_ ".git/rebase-apply/rebasing"
       || exists_ ".git/rebase-apply"
    then AbortGit ["rebase"; "--abort"]
    else if exists_ ".git/CHERRY_PICK_HEAD" then AbortGit ["cherry-pick"; "--abort"]
    else if exists_ ".git/MERGE_HEAD" then AbortGit ["merge"; "--abort"]
    else if exists_ ".git/BISECT_LOG" then AbortGit ["bisect"; "reset"]
    else AbortNothing.
Proof.
  unfold abortWhatever, inProgress.
  destruct (exists_ ".git/rebase-merge"), (exists_ ".git/rebase-apply/rebasing"),
           (exists_ ".git/rebase-apply"), (exists_ ".git/CHERRY_PICK_HEAD"),
           (exists_ ".git/MERGE_HEAD"), (exists_ ".git/BISECT_LOG"); reflexivity.
Qed.

(** ** Mutating commands *)

(** X10.  The flag of [git-force] goes to the next command only: that
    command gets its own arguments followed by the flag, the command
    after it gets its own arguments and nothing else; asking for the
    flag twice passes it twice. *)
Theorem git_force_one_shot (a b extra_args : list string) :
  let '(used1, pending1) := git_arguments a (git_force extra_args) in
  let '(used2, pending2) := git_arguments b pending1 in
  used1 = a ++ extra_args ++ ["--force"] /\ used2 = b /\ pending2 = []
  /\ fst (git_arguments a (git_force (git_force []))) = a ++ ["--force"; "--force"].
Proof.
  unfold git_arguments, git_force. cbn [fst]. repeat split.
  now rewrite List.app_nil_r.
Qed.

(** ** The input of [git apply] *)

Lemma split_terminated (c : ascii) (ys : list string) :
  Forall (fun y => Py.find c y = None) ys ->
  PyStr.split c (terminated c ys) = ys ++ [""].
Proof.
  induction 1 as [|y ys Hy _ IH]; [reflexivity|].
  rewrite terminated_cons, split_field by assumption. now rewrite IH.
Qed.

(** X11.  Cutting the input of [git apply] at the ends of line gives the
    lines of the hunk back, followed by one empty string: every line is
    sent whole and ended by a newline.  A hunk without lines is sent as
    one empty line.  The command is [apply -p0 -], then the arguments of
    the caller, then the pending extra arguments. *)
Theorem git_apply_body (lines args extra_args : list string) :
  Forall (fun l => Py.find newline l = None) lines ->
  let '(used, body, pending) := git_apply lines args extra_args in
  PyStr.split newline body
  = (match lines with [] => [""] | _ => lines end) ++ [""]
  /\ used = ["apply"; "-p0"; "-"] ++ args ++ extra_args
  /\ pending = [].
Proof.
  intros Hfree. unfold git_apply, git_arguments. split.
  - unfold patch_body. destruct lines as [|l lines].
    + reflexivity.
    + rewrite join_terminated by discriminate. now apply split_terminated.
  - split; [|reflexivity]. now rewrite <- List.app_assoc.
Qed.

Lemma git_apply_body_witness :
  PyStr.split newline (patch_body ["@@ -1 +1 @@"; "-old"; "+new"])
  = ["@@ -1 +1 @@"; "-old"; "+new"; ""].
Proof.
  pose proof (git_apply_body ["@@ -1 +1 @@"; "-old"; "+new"] [] []) as H.
  cbn [git_apply git_arguments] in H. apply H.
  repeat constructor.
Defined.

(** ** Status label and cache read *)

(** X12.  [statusText] fails (the unpacking of the code raises) exactly
    on records whose code is not two characters long. *)
Theorem statusText_fails (st : FileStatus) :
  statusText st = None <-> String.length (status st) <> 2%nat.
Proof.
  unfold statusText. destruct (status st) as [|x [|y [|z s]]]; cbn; split;
    intros H; try discriminate; try lia; try reflexivity.
Qed.

(** X13.  Reading the status of a row twice is reading it once: the
    second read returns the same record and leaves the cache as the
    first read made it. *)
Theorem git_status_idempotent (cache : gmap string FileStatus) (r : option GitFile) :
  git_status (snd (git_status cache r)) r
  = (fst (git_status cache r), snd (git_status cache r)).
Proof.
  destruct r as [gf|]; [|reflexivity]. unfold git_status.
  destruct (cache !! filename gf) as [st|] eqn:E; cbn [fst snd].
  - now rewrite E.
  - now rewrite lookup_insert_eq.
Qed.

(** ** Invariants of a reload *)

Lemma exec_invariant (P : Sheet -> Prop) (acts : list Action) :
  Forall (fun a => forall s, P s -> P (fst (a s))) acts ->
  forall s, P s -> P (fst (exec acts s)).
Proof.
  induction 1 as [|a acts Ha _ IH]; intros s Hs; [exact Hs|].
  cbn [exec]. specialize (Ha s Hs).
  destruct (a s) as [s1 [|e]]; cbn [fst] in *; [now apply IH|exact Ha].
Qed.

Lemma Forall_map_intro {A B} (Q : B -> Prop) (f : A -> B) (l : list A) :
  (forall x, Q (f x)) -> Forall Q (map f l).
Proof. intros H. induction l as [|x l IH]; cbn [map]; constructor; auto. Qed.

(** A property of every kind of statement of [reload] holds of every
    statement after the opening. *)
Lemma reload_rest_all (Q : Action -> Prop) (h : Host) (inp : Inputs) :
  (forall fn, Q (ls_files_body fn)) ->
  (forall line, Q (status_body h inp line)) ->
  (forall w line, Q (numstat_body w line)) ->
  (forall item, Q (candidate_body h item)) ->
  (forall evs o, Q (fun s => (report evs s, o))) ->
  Q (step (orderBy_desc last_column)) ->
  Q (step (fun s => s)) ->
  Forall Q (reload_rest h inp).
Proof.
  intros H1 H2 H3 H4 H5 H6 H7. unfold reload_rest, for_iter.
  rewrite !Forall_app. repeat split;
    try (apply Forall_map_intro; auto); repeat constructor; auto.
Qed.

Lemma two_char_insert (cache : gmap string FileStatus) (fn code : string)
  (a d : option string) :
  two_char cache -> String.length code = 2%nat ->
  two_char (<[fn := mkFileStatus code a d]> cache).
Proof.
  intros H Hc k st. destruct (decide (fn = k)) as [->|Hne].
  - rewrite lookup_insert_eq. now intros [= <-].
  - rewrite lookup_insert_ne by assumption. apply H.
Qed.

Lemma two_char_alter (cache : gmap string FileStatus) (fn v : string) (w : Numstat) :
  two_char cache -> two_char (alter (set_delta w v) fn cache).
Proof.
  intros H k st. destruct (decide (fn = k)) as [->|Hne].
  - rewrite lookup_alter_eq. destruct (cache !! k) as [st0|] eqn:E; [|discriminate].
    cbn. intros [= <-]. specialize (H k st0 E). now destruct w.
  - rewrite lookup_alter_ne by assumption. apply H.
Qed.

Lemma status_fields_code (line : string) :
  String.length (fst (status_fields line)) = 2%nat.
Proof.
  unfold status_fields.
  destruct (String.eqb_spec (Py.take 1 (Py.drop 2 line)) " ") as [E|_]; [|reflexivity].
  destruct line as [|a [|b [|c line]]]; try discriminate. reflexivity.
Qed.

Lemma status_step_cache (h : Host) (inp : Inputs) (line : string) (s : Sheet) :
  cachedStatus (status_step h inp line s)
  = if Py.truthy line
    then <[filename (reported_file h line)
           := mkFileStatus (fst (status_fields line)) None None]> (cachedStatus s)
    else cachedStatus s.
Proof.
  rewrite status_step_spec. destruct (Py.truthy line); [|reflexivity]. cbn zeta.
  now destruct (shows_row h inp line).
Qed.

Lemma seed_length (w : Numstat) : String.length (seed w) = 2%nat.
Proof. now destruct w. Qed.

Lemma reload_keeps_two_char (h : Host) (inp : Inputs) :
  Forall (fun a => forall s, two_char (cachedStatus s) -> two_char (cachedStatus (fst (a s))))
         (reload_rest h inp).
Proof.
  apply reload_rest_all.
  - intros fn s H. now apply two_char_insert.
  - intros line s H. change (two_char (cachedStatus (status_step h inp line s))).
    rewrite status_step_cache. destruct (Py.truthy line); [|exact H].
    apply two_char_insert; [exact H|apply status_fields_code].
  - intros w line s H. unfold numstat_body.
    destruct (negb (Py.truthy line)); [exact H|].
    destruct (PyStr.split "009" line) as [|a [|d [|fn [|]]]]; try exact H.
    cbn [fst set_cache cachedStatus]. apply two_char_alter.
    destruct (cachedStatus s !! fn); [exact H|].
    apply two_char_insert; [exact H|apply seed_length].
  - intros item s H. cbn [candidate_body step fst].
    now destruct (negb (ignored h (cachedStatus s) (filename (snd item)))).
  - intros evs o s H. exact H.
  - intros s H. cbn [step fst]. now rewrite orderBy_last_column.
  - intros s H. exact H.
Qed.

(** X14.  Whatever the output of the commands, and also when the reload
    stops on an exception, every record that a reload leaves in the
    cache has a code of two characters, so [statusText] gives a label
    for each of them; a status read keeps this. *)
Theorem reload_codes (h : Host) (inp : Inputs) (s : Sheet) :
  two_char (cachedStatus (reload_final h inp s))
  /\ (forall fn st, cachedStatus (reload_final h inp s) !! fn = Some st ->
        exists label, statusText st = Some label)
  /\ (forall r, two_char (snd (git_status (cachedStatus (reload_final h inp s)) r))).
Proof.
  assert (H : two_char (cachedStatus (reload_final h inp s))).
  { destruct (reload_final_exec h inp s) as [-> _].
    apply (exec_invariant (fun s => two_char (cachedStatus s)));
      [apply reload_keeps_two_char|].
    intros k st. unfold reset. cbn [set_cache cachedStatus]. now rewrite lookup_empty. }
  split; [exact H|]. split.
  - intros fn st Hst. specialize (H fn st Hst). unfold statusText.
    destruct (status st) as [|x [|y [|z t]]]; try discriminate. now eexists.
  - intros [gf|]; [|exact H]. unfold git_status.
    destruct (cachedStatus (reload_final h inp s) !! filename gf); [exact H|].
    cbn [snd]. now apply two_char_insert.
Qed.

(** ** The candidates of the directory listing *)

Lemma startswith_length (a s : string) :
  PyStr.startswith a s = true -> (String.length a <= String.length s)%nat.
Proof.
  revert s. induction a as [|x a IH]; intros s H; [cbn; lia|].
  destruct s as [|y s]; [discriminate|]. cbn in H.
  apply andb_prop in H. destruct H as [_ H]. apply IH in H. cbn. lia.
Qed.

Lemma contains_length (a s : string) :
  PyStr.contains a s = true -> (String.length a <= String.length s)%nat.
Proof.
  induction s as [|y s IH]; cbn [PyStr.contains]; intros H.
  - rewrite orb_false_r in H. now apply startswith_length.
  - apply orb_prop in H. destruct H as [H|H].
    + now apply startswith_length.
    + apply IH in H. cbn. lia.
Qed.

(** X15.  The candidates of a reload are the entries of the directory
    whose name does not occur in the text [.git]: every entry with a name
    of more than four characters is a candidate, the entry [.git] never
    is, and neither is an entry named [git] (the test is on a string,
    not on a tuple of names). *)
Theorem files_filter (inp : Inputs) :
  (forall p, In p (in_iterdir inp) -> (4 < String.length (path_name p))%nat ->
     In (GitFile_init p) (files inp))
  /\ (forall gf, In gf (files inp) ->
        In (path gf) (in_iterdir inp)
        /\ path_name (path gf) <> ".git" /\ path_name (path gf) <> "git").
Proof.
  unfold files. split.
  - intros p Hin Hlen. apply in_map, List.filter_In. split; [assumption|].
    destruct (PyStr.contains (path_name p) ".git") eqn:E; [|reflexivity].
    apply contains_length in E. cbn in E. lia.
  - intros gf Hin. apply in_map_iff in Hin. destruct Hin as (p & <- & Hp).
    apply List.filter_In in Hp. destruct Hp as [Hp Hc]. cbn [GitFile_init path].
    split; [assumption|]. split; intros E; rewrite E in Hc; discriminate.
Qed.

Lemma dict_set_keys {V} (k : string) (v : V) (d : list (string * V)) :
  map fst (Dict.set k v d)
  = if Dict.has k d then map fst d else map fst d ++ [k].
Proof.
  induction d as [|[k' v'] d IH]; [reflexivity|].
  cbn [Dict.set Dict.has existsb fst]. fold (Dict.has k d).
  destruct (String.eqb_spec k' k) as [->|Hne]; cbn [orb map fst]; [reflexivity|].
  rewrite IH. now destruct (Dict.has k d).
Qed.

Lemma dict_has_iff {V} (k : string) (d : list (string * V)) :
  Dict.has k d = true <-> In k (map fst d).
Proof.
  unfold Dict.has. rewrite existsb_exists, in_map_iff. split.
  - intros (kv & Hin & E). apply String.eqb_eq in E. now exists kv.
  - intros (kv & E & Hin). exists kv. split; [assumption|]. now apply String.eqb_eq.
Qed.

Lemma nodup_snoc {A} (l : list A) (x : A) :
  NoDup l -> ~ In x l -> NoDup (l ++ [x]).
Proof.
  induction 1 as [|y l Hy Hl IH]; intros Hx; cbn [app].
  - constructor; [|constructor]. intros H. now apply elem_of_nil in H.
  - constructor.
    + rewrite list_elem_of_In, in_app_iff. intros [H|[H|[]]].
      * now apply Hy, list_elem_of_In.
      * apply Hx. now left.
    + apply IH. intros H. apply Hx. now right.
Qed.

Lemma dict_set_nodup {V} (k : string) (v : V) (d : list (string * V)) :
  NoDup (map fst d) -> NoDup (map fst (Dict.set k v d)).
Proof.
  intros H. rewrite dict_set_keys. destruct (Dict.has k d) eqn:E; [exact H|].
  apply nodup_snoc; [exact H|]. intros Hin. apply dict_has_iff in Hin. congruence.
Qed.

Lemma dict_of_pairs_nodup {V} (l : list (string * V)) :
  NoDup (map fst (Dict.of_pairs l)).
Proof.
  unfold Dict.of_pairs.
  assert (H : forall d : list (string * V), NoDup (map fst d) ->
            NoDup (map fst (fold_left (fun d kv => Dict.set (fst kv) (snd kv) d) l d))).
  { induction l as [|kv l IH]; intros d Hd; [exact Hd|].
    cbn [fold_left]. apply IH. now apply dict_set_nodup. }
  apply H. constructor.
Qed.

Lemma filenames_item (inp : Inputs) (item : string * GitFile) :
  In item (filenames inp) -> fst item = filename (snd item).
Proof.
  intros Hin. unfold filenames, Dict.of_pairs in Hin.
  apply dict_fold_in in Hin. destruct Hin as [Hin|[]].
  apply in_map_iff in Hin. now destruct Hin as (gf & <- & _).
Qed.

Lemma candidate_count (h : Host) (cache : gmap string FileStatus) (p : string)
  (items : list (string * GitFile)) :
  NoDup (map fst items) ->
  (forall item, In item items -> fst item = filename (snd item)) ->
  In p (map fst items) ->
  count_rows p (List.filter (fun gf => negb (ignored h cache (filename gf)))
                            (map snd items))
  = if ignored h cache p then 0%nat else 1%nat.
Proof.
  induction items as [|[k gf] items IH]; intros Hnd Hkey Hin; [destruct Hin|].
  cbn [map fst snd] in *. inversion Hnd as [|? ? Hk Hnd']; subst.
  assert (Hgf : k = filename gf) by (apply (Hkey (k, gf)); now left).
  assert (Hkey' : forall item, In item items -> fst item = filename (snd item))
    by (intros item Hi; apply Hkey; now right).
  cbn [List.filter]. destruct (decide (k = p)) as [->|Hne].
  - assert (Hrest : count_rows p (List.filter
              (fun gf0 => negb (ignored h cache (filename gf0))) (map snd items)) = 0%nat).
    { apply count_rows_none. intros r Hr E. apply List.filter_In in Hr.
      destruct Hr as [Hr _]. apply in_map_iff in Hr. destruct Hr as (item & <- & Hi).
      apply Hk, list_elem_of_In, in_map_iff. exists item. split; [|assumption].
      rewrite (Hkey' item Hi). exact E. }
    rewrite <- Hgf. destruct (ignored h cache p); cbn [negb]; [exact Hrest|].
    unfold count_rows in *. cbn [List.filter]. rewrite <- Hgf, String.eqb_refl.
    cbn [length]. now rewrite Hrest.
  - destruct Hin as [E|Hin]; [congruence|].
    specialize (IH Hnd' Hkey' Hin).
    destruct (negb (ignored h cache (filename gf))); [|exact IH].
    unfold count_rows in *. cbn [List.filter].
    destruct (String.eqb_spec (filename gf) p) as [E|_]; [congruence|exact IH].
Qed.

Lemma filter_all_false {A} (f : A -> bool) (l : list A) :
  (forall x, f x = false) -> List.filter f l = [].
Proof.
  intros H. induction l as [|x l IH]; [reflexivity|].
  cbn [List.filter]. now rewrite H.
Qed.

(** X16.  In a reload that runs to its end every candidate of the
    directory listing has one row, unless its record is ignored at the
    end of the queries, and then it has none: with the option to show
    ignored files every candidate has one row; without it a candidate
    whose code is [!!] has none. *)
Theorem candidate_rows (h : Host) (inp : Inputs) (s : Sheet) (p : string) :
  snd (reload h inp s) = Finished ->
  In p (map fst (filenames inp)) ->
  count_rows p (rows (reload_final h inp s))
  = if ignored h (cachedStatus (reload_final h inp s)) p then 0%nat else 1%nat.
Proof.
  intros Hfin Hp.
  destruct (reload_finished h inp s Hfin) as (s3 & s4 & H). cbn zeta in H.
  destruct H as (E3 & E4 & _ & _ & _ & _ & ->).
  rewrite (count_rows_perm p _ _ (orderBy_last_column_perm _)).
  rewrite orderBy_last_column. cbn [set_rows cachedStatus].
  rewrite candidate_loop_cache, candidate_loop_rows, count_rows_app.
  rewrite (candidate_count h _ p (filenames inp));
    [|apply dict_of_pairs_nodup|apply filenames_item|assumption].
  cbn [report rows cachedStatus].
  pose proof (numstat_loop_rows Staged (it_chunks (numstat_iter Staged h inp))
                (report (it_events (numstat_iter Unstaged h inp)) s3)) as (R4 & _).
  rewrite E4 in R4. cbn [fst report rows] in R4. rewrite R4.
  match type of E3 with exec _ ?s2 = _ =>
    pose proof (numstat_loop_rows Unstaged (it_chunks (numstat_iter Unstaged h inp)) s2)
      as (R3 & _) end.
  rewrite E3 in R3. cbn [fst report rows] in R3. rewrite R3.
  rewrite status_loop_rows. cbn [report rows]. rewrite ls_files_loop_rows.
  cbn [reset set_cache set_rows rows app].
  rewrite count_rows_map_filter.
  replace (length (List.filter _ (it_chunks (status_iter h inp)))) with 0%nat; [reflexivity|].
  symmetry. apply length_zero_iff_nil, filter_all_false. intros line.
  destruct (String.eqb_spec (filename (reported_file h line)) p) as [E|_];
    [|now rewrite andb_false_r].
  unfold shows_row. rewrite E. apply dict_has_iff in Hp. rewrite Hp.
  cbn [negb]. now rewrite andb_false_r.
Qed.

Lemma candidate_rows_witness :
  count_rows "kept.txt" (rows (reload_final demo_host one_deleted blank)) = 1%nat.
Proof.
  assert (Hfin : snd (reload demo_host one_deleted blank) = Finished)
    by (vm_compute; reflexivity).
  assert (Hp : In "kept.txt" (map fst (filenames one_deleted)))
    by (vm_compute; now left).
  rewrite (candidate_rows demo_host one_deleted blank "kept.txt" Hfin Hp).
  vm_compute. reflexivity.
Defined.

(** ** The codes of the records after a reload *)

Lemma ls_files_loop_other (chunks : list string) (p : string) :
  forall s, ~ In p chunks ->
    cachedStatus (fold_left (fun s fn => fst (ls_files_body fn s)) chunks s) !! p
    = cachedStatus s !! p.
Proof.
  induction chunks as [|fn chunks IH]; intros s Hn; [reflexivity|].
  cbn [fold_left]. rewrite IH by (intros H; apply Hn; now right).
  cbn [ls_files_body step fst set_cache cachedStatus].
  apply lookup_insert_ne. intros ->. apply Hn. now left.
Qed.

Lemma ls_files_loop_lookup (chunks : list string) (p : string) :
  forall s, In p chunks ->
    cachedStatus (fold_left (fun s fn => fst (ls_files_body fn s)) chunks s) !! p
    = Some (mkFileStatus "  " None None).
Proof.
  induction chunks as [|fn chunks IH]; intros s Hin; [destruct Hin|].
  cbn [fold_left]. destruct (in_dec string_dec p chunks) as [Hp|Hp].
  - now apply IH.
  - destruct Hin as [->|Hin]; [|contradiction].
    rewrite ls_files_loop_other by assumption.
    cbn [ls_files_body step fst set_cache cachedStatus]. apply lookup_insert_eq.
Qed.

Lemma status_loop_other (h : Host) (inp : Inputs) (p : string) (chunks : list string) :
  forall s, Forall (not_reporting h p) chunks ->
    cachedStatus (fold_left (fun s line => status_step h inp line s) chunks s) !! p
    = cachedStatus s !! p.
Proof.
  induction chunks as [|line chunks IH]; intros s Hall; [reflexivity|].
  inversion Hall as [|? ? Hline Hrest]; subst.
  cbn [fold_left]. rewrite IH by assumption. rewrite status_step_cache.
  destruct (Py.truthy line) eqn:T; [|reflexivity].
  apply lookup_insert_ne. now apply Hline.
Qed.

Lemma status_loop_last (h : Host) (inp : Inputs) (line : string)
  (pre post : list string) (s : Sheet) :
  Py.truthy line = true ->
  Forall (not_reporting h (filename (reported_file h line))) post ->
  cachedStatus (fold_left (fun s line => status_step h inp line s)
                          (pre ++ line :: post) s)
    !! filename (reported_file h line)
  = Some (mkFileStatus (fst (status_fields line)) None None).
Proof.
  intros T Hpost. rewrite fold_left_app. cbn [fold_left].
  rewrite status_loop_other by assumption.
  rewrite status_step_cache, T. apply lookup_insert_eq.
Qed.

(** The cache at the end, from the sheet that the two numstat loops start
    on. *)
Lemma reload_final_cache_numstat (h : Host) (inp : Inputs) (s : Sheet) :
  snd (reload h inp s) = Finished ->
  exists s3 s4,
    exec (map (numstat_body Unstaged) (it_chunks (numstat_iter Unstaged h inp)))
         (after_status h inp s) = (s3, Finished)
    /\ exec (map (numstat_body Staged) (it_chunks (numstat_iter Staged h inp)))
            (report (it_events (numstat_iter Unstaged h inp)) s3) = (s4, Finished)
    /\ cachedStatus (reload_final h inp s) = cachedStatus s4.
Proof. exact (reload_final_cache h inp s). Qed.

(** The numstat queries keep the code that the first two queries gave. *)
Lemma reload_final_status (h : Host) (inp : Inputs) (s : Sheet) (p : string)
  (st0 : FileStatus) :
  snd (reload h inp s) = Finished ->
  cachedStatus (after_status h inp s) !! p = Some st0 ->
  exists st, cachedStatus (reload_final h inp s) !! p = Some st
             /\ status st = status st0.
Proof.
  intros Hfin H0.
  destruct (reload_final_cache_numstat h inp s Hfin) as (s3 & s4 & E3 & E4 & ->).
  destruct (numstat_loop_keeps Unstaged p (it_chunks (numstat_iter Unstaged h inp))
              (after_status h inp s) st0 H0) as (st3 & H3 & S3 & _).
  rewrite E3 in H3. cbn [fst] in H3.
  destruct (numstat_loop_keeps Staged p (it_chunks (numstat_iter Staged h inp))
              (report (it_events (numstat_iter Unstaged h inp)) s3) st3 H3)
    as (st4 & H4 & S4 & _).
  rewrite E4 in H4. cbn [fst] in H4.
  exists st4. split; [assumption|congruence].
Qed.

(** X17.  In a reload that runs to its end, a path of the tracked-file
    query that no status chunk reports keeps the code of two spaces. *)
Theorem tracked_stays_clean (h : Host) (inp : Inputs) (s : Sheet) (fn : string) :
  snd (reload h inp s) = Finished ->
  In fn (it_chunks (ls_files_iter h inp)) ->
  Forall (not_reporting h fn) (it_chunks (status_iter h inp)) ->
  exists st, cachedStatus (reload_final h inp s) !! fn = Some st /\ status st = "  ".
Proof.
  intros Hfin Hin Hnone.
  apply (reload_final_status h inp s fn (mkFileStatus "  " None None) Hfin).
  unfold after_status. cbn [report cachedStatus].
  rewrite status_loop_other by assumption. cbn [report cachedStatus].
  now apply ls_files_loop_lookup.
Qed.

Lemma tracked_stays_clean_witness :
  exists st, cachedStatus (reload_final demo_host one_deleted blank) !! "kept.txt" = Some st
             /\ status st = "  ".
Proof.
  apply tracked_stays_clean.
  - vm_compute. reflexivity.
  - vm_compute. now left.
  - vm_compute. repeat constructor. intros _. discriminate.
Defined.

(** X18.  In a reload that runs to its end, the last status chunk
    [XY path] for a path decides the code of its record: the code is
    [XY], whatever the tracked-file query and the numstat queries say. *)
Theorem status_code_wins (h : Host) (inp : Inputs) (s : Sheet)
  (x y : ascii) (fn : string) (pre post : list string) :
  snd (reload h inp s) = Finished ->
  it_chunks (status_iter h inp) = pre ++ status_line x y fn :: post ->
  Forall (not_reporting h (path_rel (joinpath h fn))) post ->
  exists st, cachedStatus (reload_final h inp s) !! path_rel (joinpath h fn) = Some st
             /\ status st = String x (String y "").
Proof.
  intros Hfin Hchunks Hpost.
  apply (reload_final_status h inp s _ (mkFileStatus (String x (String y "")) None None) Hfin).
  unfold after_status. cbn [report cachedStatus]. rewrite Hchunks.
  exact (status_loop_last h inp (status_line x y fn) pre post _ eq_refl Hpost).
Qed.

Lemma status_code_wins_witness :
  exists st, cachedStatus (reload_final demo_host two_staged blank) !! "a" = Some st
             /\ status st = "M ".
Proof.
  apply (status_code_wins demo_host two_staged blank "M" " " "a" [] ["M  b"]).
  - vm_compute. reflexivity.
  - vm_compute. reflexivity.
  - repeat constructor. intros _. vm_compute. discriminate.
Defined.

(** ** Reloading again *)

(** X19.  A reload does not depend on the sheet it starts from: reloading
    twice on the same output of the commands ends in the same way and
    shows the same branch, rows and records as reloading once. *)
Theorem reload_idempotent (h : Host) (inp : Inputs) (s : Sheet) :
  snd (reload h inp (reload_final h inp s)) = snd (reload h inp s)
  /\ view (reload_final h inp (reload_final h inp s)) = view (reload_final h inp s).
Proof.
  destruct (reload_final_exec h inp (reload_final h inp s)) as [E1 O1].
  destruct (reload_final_exec h inp s) as [E2 O2].
  rewrite O1, O2, E1. rewrite E2 at 3.
  apply exec_sim.
  - apply reload_body_sim; [reflexivity|]. intros q. now split.
  - now rewrite !reset_view.
Qed.

(** ** Numstat lines that do not unpack *)

Lemma split_length (c : ascii) (s : string) :
  length (PyStr.split c s) = S (count_char c s).
Proof.
  induction s as [|a s IH]; [reflexivity|]. cbn [PyStr.split count_char].
  destruct (Ascii.eqb a c).
  - cbn [length]. now rewrite IH.
  - destruct (PyStr.split c s) as [|x xs]; cbn [length] in *; [discriminate|].
    exact IH.
Qed.

Lemma count_char_app (c : ascii) (a b : string) :
  count_char c (a +:+ b) = (count_char c a + count_char c b)%nat.
Proof.
  induction a as [|x a IH]; [reflexivity|].
  rewrite sapp_cons. cbn [count_char]. rewrite IH. lia.
Qed.

Lemma count_char_find (c : ascii) (s : string) :
  Py.find c s <> None -> (1 <= count_char c s)%nat.
Proof.
  induction s as [|a s IH]; [intros H; now contradiction H|].
  cbn [Py.find count_char]. destruct (Ascii.eqb a c); [lia|].
  intros H. assert (Py.find c s <> None) by (now destruct (Py.find c s)).
  apply IH in H0. lia.
Qed.

(** X20.  A numstat chunk that is not empty and does not split into three
    fields at the tabs raises [ValueError] and leaves the sheet alone;
    the loop ends there, with the sheet as the chunks before made it.  A
    line whose path holds a tab is such a chunk. *)
Theorem numstat_unpack_error (w : Numstat) (line : string) :
  line <> "" ->
  length (PyStr.split tab line) <> 3%nat ->
  (forall s, numstat_body w line s = (s, Raised "ValueError"))
  /\ (forall pre post s0 s1,
        exec (map (numstat_body w) pre) s0 = (s1, Finished) ->
        exec (map (numstat_body w) (pre ++ line :: post)) s0 = (s1, Raised "ValueError")).
Proof.
  intros Hne Hlen.
  assert (Hb : forall s, numstat_body w line s = (s, Raised "ValueError")).
  { intros s. unfold numstat_body. destruct line as [|c0 line]; [congruence|].
    cbn [Py.truthy negb]. change "009"%char with tab.
    destruct (PyStr.split tab (String c0 line)) as [|a [|d [|fn [|]]]];
      try reflexivity. now contradiction Hlen. }
  split; [exact Hb|].
  intros pre post s0 s1 E. rewrite map_app, exec_app, E. cbn [map exec].
  now rewrite Hb.
Qed.

Lemma tab_in_path (a d fn : string) :
  Py.find tab fn <> None ->
  numstat_line a d fn <> "" /\ length (PyStr.split tab (numstat_line a d fn)) <> 3%nat.
Proof.
  intros H. split.
  - unfold numstat_line. destruct a; discriminate.
  - rewrite split_length. unfold numstat_line.
    rewrite count_char_app. cbn [count_char]. rewrite Ascii.eqb_refl.
    rewrite count_char_app. cbn [count_char]. rewrite Ascii.eqb_refl.
    apply count_char_find in H. lia.
Qed.

Lemma numstat_unpack_error_witness :
  numstat_body Unstaged (numstat_line "3" "1" ("my" +:+ String tab "file")) blank
  = (blank, Raised "ValueError").
Proof.
  destruct (tab_in_path "3" "1" ("my" +:+ String tab "file")) as [H1 H2];
    [discriminate|].
  destruct (numstat_unpack_error Unstaged _ H1 H2) as [H _]. apply H.
Defined.

(** ** The delta columns *)

Lemma reload_final_delta (h : Host) (inp : Inputs) (s : Sheet) (w : Numstat)
  (a d p : string) (pre post : list string) :
  Py.find tab a = None -> Py.find tab d = None -> Py.find tab p = None ->
  snd (reload h inp s) = Finished ->
  it_chunks (numstat_iter w h inp) = pre ++ numstat_line a d p :: post ->
  Forall (not_for p) post ->
  exists st, cachedStatus (reload_final h inp s) !! p = Some st
             /\ delta_field w st = Some (delta a d).
Proof.
  intros Ha Hd Hp Hfin Hchunks Hpost.
  destruct (reload_final_cache_numstat h inp s Hfin) as (s3 & s4 & E3 & E4 & ->).
  destruct w.
  - rewrite Hchunks in E3.
    destruct (numstat_loop_last Unstaged a d p pre post _ s3 Ha Hd Hp Hpost E3)
      as (st3 & Hst3 & Hf3).
    destruct (numstat_loop_keeps Staged p (it_chunks (numstat_iter Staged h inp))
                (report (it_events (numstat_iter Unstaged h inp)) s3) st3 Hst3)
      as (st4 & Hst4 & _ & Hadds).
    rewrite E4 in Hst4. cbn [fst] in Hst4.
    exists st4. split; [assumption|]. cbn [delta_field] in *. congruence.
  - rewrite Hchunks in E4.
    exact (numstat_loop_last Staged a d p pre post _ s4 Ha Hd Hp Hpost E4).
Qed.

(** X21.  After a reload that runs to its end, the column [unstaged]
    shows for a row the delta of the last [diff-files] line for its
    path, and the column [staged] that of the last [diff-index] line;
    reading the cell leaves the cache as it is. *)
Theorem delta_columns (h : Host) (inp : Inputs) (s : Sheet) (w : Numstat)
  (a d : string) (r : GitFile) (pre post : list string) :
  Py.find tab a = None -> Py.find tab d = None -> Py.find tab (filename r) = None ->
  snd (reload h inp s) = Finished ->
  it_chunks (numstat_iter w h inp) = pre ++ numstat_line a d (filename r) :: post ->
  Forall (not_for (filename r)) post ->
  exists col, column_named (numstat_column w) = Some col
    /\ col_getter col (cachedStatus (reload_final h inp s)) r
       = (CStr ("+" +:+ a +:+ "/-" +:+ d), cachedStatus (reload_final h inp s)).
Proof.
  intros Ha Hd Hp Hfin Hchunks Hpost.
  destruct (reload_final_delta h inp s w a d (filename r) pre post
              Ha Hd Hp Hfin Hchunks Hpost) as (st & Hst & Hf).
  destruct w; cbn [numstat_column delta_field] in *.
  - eexists. split; [reflexivity|]. cbn [col_getter]. unfold via_status, git_status.
    rewrite Hst, Hf. reflexivity.
  - eexists. split; [reflexivity|]. cbn [col_getter]. unfold via_status, git_status.
    rewrite Hst, Hf. reflexivity.
Qed.

Lemma delta_columns_witness :
  exists col, column_named "staged" = Some col
    /\ fst (col_getter col (cachedStatus (reload_final demo_host two_staged blank))
                       (GitFile_init (plain_path 1 "b")))
       = CStr "+9/-0".
Proof.
  assert (Hfin : snd (reload demo_host two_staged blank) = Finished)
    by (vm_compute; reflexivity).
  assert (Hchunks : it_chunks (numstat_iter Staged demo_host two_staged)
                    = [numstat_line "1" "0" "a"]
                        ++ numstat_line "9" "0" (filename (GitFile_init (plain_path 1 "b")))
                        :: [])
    by (vm_compute; reflexivity).
  destruct (delta_columns demo_host two_staged blank Staged "9" "0"
              (GitFile_init (plain_path 1 "b")) [numstat_line "1" "0" "a"] []
              eq_refl eq_refl eq_refl Hfin Hchunks (List.Forall_nil _))
    as (col & Hcol & Hget).
  exists col. split; [exact Hcol|]. now rewrite Hget.
Defined.

(** ** The branch line of the sheet *)

Lemma rstrip_blank (ws : string) : blank_run ws -> PyStr.rstrip ws = "".
Proof.
  unfold blank_run. induction ws as [|a ws IH]; [reflexivity|].
  cbn [all_chars PyStr.rstrip]. intros H. apply andb_prop in H as [Ha Hws].
  rewrite (IH Hws). unfold PyStr.is_space. now rewrite Ha.
Qed.

Lemma rstrip_token (l ws : string) :
  all_chars Re.nonspace l = true -> blank_run ws -> PyStr.rstrip (l +:+ ws) = l.
Proof.
  intros Hl Hws. induction l as [|a l IH].
  - rewrite sapp_nil_l. now apply rstrip_blank.
  - cbn [all_chars] in Hl. apply andb_prop in Hl as [Ha Hl].
    rewrite sapp_cons. cbn [PyStr.rstrip]. rewrite (IH Hl).
    destruct l as [|b l]; [|reflexivity].
    unfold PyStr.is_space. unfold Re.nonspace in Ha.
    now destruct (Re.space a).
Qed.

Lemma strip_token (l ws : string) :
  token l -> blank_run ws -> PyStr.strip (l +:+ ws) = l.
Proof.
  intros [Hne Hl] Hws. unfold PyStr.strip.
  destruct l as [|a l]; [congruence|].
  assert (Ha : PyStr.is_space a = false).
  { cbn [all_chars] in Hl. apply andb_prop in Hl as [Ha _].
    unfold PyStr.is_space. unfold Re.nonspace in Ha. now destruct (Re.space a). }
  rewrite sapp_cons. cbn [PyStr.lstrip]. rewrite Ha.
  rewrite <- sapp_cons. now apply rstrip_token.
Qed.

Lemma reload_rest_header (h : Host) (inp : Inputs) (b r : string) :
  Forall (fun a => forall s, branch s = b /\ remotediff s = r ->
                             branch (fst (a s)) = b /\ remotediff (fst (a s)) = r)
         (reload_rest h inp).
Proof.
  apply reload_rest_all.
  - intros fn s H. exact H.
  - intros line s H. unfold status_body, step. cbn [fst].
    destruct (Py.truthy line); [|exact H].
    destruct (status_fields line) as [st fn].
    destruct (negb (Dict.has _ (filenames inp))); [|exact H].
    now destruct (negb (ignored h _ _)).
  - intros w line s H. unfold numstat_body.
    destruct (negb (Py.truthy line)); [exact H|].
    now destruct (PyStr.split "009" line) as [|a [|d [|fn [|]]]].
  - intros item s H. cbn [candidate_body step fst].
    now destruct (negb (ignored h (cachedStatus s) (filename (snd item)))).
  - intros evs o s H. exact H.
  - intros s H. cbn [step fst]. unfold orderBy_desc.
    now destruct (keyed (col_getter last_column) (cachedStatus s) (rows s)).
  - intros s H. exact H.
Qed.

Lemma reload_final_header (h : Host) (inp : Inputs) (s : Sheet) :
  branch (reload_final h inp s) = PyStr.strip (contents (in_head inp))
  /\ remotediff (reload_final h inp s)
     = default "no branch"
         (fst (getBranchStatuses (map Py.drop_last (p_blocks (in_refs inp))))
            !! PyStr.strip (contents (in_head inp))).
Proof.
  destruct (reload_final_exec h inp s) as [-> _].
  apply (exec_invariant (fun t => branch t = _ /\ remotediff t = _));
    [apply reload_rest_header|].
  pose proof (reset_view h inp s) as V. unfold view in V.
  apply pair_equal_spec in V as [V _]. apply pair_equal_spec in V as [V _].
  apply pair_equal_spec in V as [Vb Vr]. now split.
Qed.

Lemma branch_delta_both (N M : string) :
  N <> "" -> M <> "" -> branch_delta (Some N) (Some M) = "+" +:+ N +:+ "/-" +:+ M.
Proof.
  intros HN HM.
  destruct N as [|n N]; [congruence|]. destruct M as [|m0 M]; [congruence|].
  unfold branch_delta. cbn [group_true group_text Py.truthy].
  change (Py.truthy ("+" +:+ String n N)) with true. cbv iota.
  rewrite !sapp_assoc. reflexivity.
Qed.

Lemma getBranchStatuses_last (pre : list string) (line l : string) (m : Re.caps) :
  Re.match_here 7 branch_re line = Some m ->
  group m 0 = Some l ->
  fst (getBranchStatuses (pre ++ [line])) !! l
  = Some (branch_delta (group m 4) (group m 6)).
Proof.
  intros Hm Hl. unfold getBranchStatuses. rewrite fold_left_app. cbn [fold_left].
  destruct (fold_left branch_step pre (∅, [])) as [ret evs].
  rewrite (branch_step_matched ret evs line l m Hm Hl). cbn [fst].
  apply lookup_insert_eq.
Qed.

(** X22.  The branch of the sheet is the output of [rev-parse] without
    the white space around it, and its delta is the one of the last line
    of [for-each-ref] when that line names the branch: with the line
    [l u [ahead N, behind M]] the sheet shows [+N/-M].  When
    [for-each-ref] prints nothing the delta reads [no branch].  Both
    hold however the rest of the reload ends. *)
Theorem reload_branch_delta (h : Host) (inp : Inputs) (s : Sheet)
  (l u N M ws : string) (eol : ascii) (pre : list string) :
  token l -> token u -> number N -> number M -> blank_run ws ->
  contents (in_head inp) = l +:+ ws ->
  branch (reload_final h inp s) = l
  /\ (p_blocks (in_refs inp) = pre ++ [both_line l u N M +:+ Py.chr eol] ->
      remotediff (reload_final h inp s) = "+" +:+ N +:+ "/-" +:+ M)
  /\ (p_blocks (in_refs inp) = [] ->
      remotediff (reload_final h inp s) = "no branch").
Proof.
  intros Hl Hu HN HM Hws Hhead.
  destruct (reload_final_header h inp s) as [Hb Hr].
  rewrite Hhead, strip_token in Hb, Hr by assumption.
  split; [exact Hb|]. split; intros Hrefs; rewrite Hr, Hrefs.
  - rewrite map_app. cbn [map]. rewrite drop_last_snoc.
    destruct (match_both l u N M Hl Hu HN HM) as (m & Hm & H0 & H4 & H6).
    rewrite (getBranchStatuses_last _ _ l m Hm H0), H4, H6.
    cbn [default]. apply branch_delta_both; [apply HN|apply HM].
  - reflexivity.
Qed.

Lemma reload_branch_delta_witness :
  branch (reload_final demo_host ahead_behind_repo blank) = "main"
  /\ remotediff (reload_final demo_host ahead_behind_repo blank) = "+2/-1".
Proof.
  destruct (reload_branch_delta demo_host ahead_behind_repo blank
              "main" "origin/main" "2" "1" (Py.chr newline) newline [])
    as (Hb & Hr & _); try (split; [discriminate|reflexivity]); try reflexivity.
  split; [exact Hb|]. apply Hr. reflexivity.
Defined.

Lemma files_filter_witness :
  In (GitFile_init (mkPath "kept.txt" "kept.txt" false ".txt" 0 0)) (files one_deleted).
Proof.
  destruct (files_filter one_deleted) as [H _].
  apply H; [now left|cbn; lia].
Defined.
